(** * split_multiline_images.py: a shallow embedding and its verification

    The script scans [data/classification-ground-truth] for annotation
    files [*.gt.txt], keeps those with more than one non-blank line, cuts
    the paired image into as many horizontal bands as there are lines,
    writes one (image, annotation) pair per line and moves the originals
    into [multiline_originals].

    Layout of this development:
    - [PyText]: Python [str] values (sequences of code points), [str.strip],
      reading a text file line by line;
    - [PyPath]: file names, [Path.stem], [str.replace('.gt', '')], the
      [{line_num:03d}] format;
    - [Geometry]: the band arithmetic of the splitting loop;
    - [Splitter]: the file system, the console, exceptions and [main];
    - [Raster] and [Samples]: a small concrete imaging library and a few
      directories, used to run the script;
    - then the facts about each part, and the properties of the
      specification, numbered C1 to C10. *)

From Stdlib Require Import ZArith Lia Ascii String DecimalString DecimalNat.
From stdpp Require Import base numbers strings list gmap fin_maps.

Local Open Scope string_scope.
Local Open Scope list_scope.

(** ** Python text *)

Module PyText.

(** A Python [str] is a sequence of Unicode code points. *)
Definition str := list N.

Definition LF : N := 10.
Definition CR : N := 13.

(** [str.isspace] on one code point (the table of
    [_PyUnicode_IsWhitespace]). *)
Definition isspace (c : N) : bool :=
  ((9 <=? c) && (c <=? 13) || (28 <=? c) && (c <=? 32)
   || (c =? 133) || (c =? 160) || (c =? 5760)
   || (8192 <=? c) && (c <=? 8202)
   || (c =? 8232) || (c =? 8233) || (c =? 8239) || (c =? 8287)
   || (c =? 12288))%N.

Fixpoint lstrip (s : str) : str :=
  match s with
  | [] => []
  | c :: r => if isspace c then lstrip r else s
  end.

Definition rstrip (s : str) : str := rev (lstrip (rev s)).

(** [s.strip()] *)
Definition strip (s : str) : str := rstrip (lstrip s).

(** Universal newlines ([open(..., 'r')] with the default [newline=None]):
    ["\r\n"] and a lone ["\r"] are read as ["\n"]. *)
Fixpoint translate_newlines (s : str) : str :=
  match s with
  | [] => []
  | 13%N :: 10%N :: r => LF :: translate_newlines r
  | 13%N :: r => LF :: translate_newlines r
  | c :: r => c :: translate_newlines r
  end.

(** [for line in f]: the lines of the text, each with its terminating
    ["\n"], the last one possibly without. [cur] holds the characters of
    the line being read, newest first. *)
Fixpoint split_keepends (cur : str) (s : str) : list str :=
  match s with
  | [] => match cur with [] => [] | _ => [rev cur] end
  | c :: r =>
      if (c =? LF)%N then rev (c :: cur) :: split_keepends [] r
      else split_keepends (c :: cur) r
  end.

Definition file_lines (content : str) : list str :=
  split_keepends [] (translate_newlines content).

(** Truth value of a [str]: non-empty. *)
Definition truthy (s : str) : bool :=
  match s with [] => false | _ => true end.

(** [[line.strip() for line in f if line.strip()]] *)
Definition stripped_lines (content : str) : list str :=
  map strip (filter (λ line, truthy (strip line) = true) (file_lines content)).

(** Code points of an ASCII literal, for examples. *)
Fixpoint codes (s : string) : str :=
  match s with
  | EmptyString => []
  | String a r => N_of_ascii a :: codes r
  end.

End PyText.

Import PyText.

(** ** File names *)

Module PyPath.

(** [name.rfind('.')], counting positions from [pos]. *)
Fixpoint rfind_dot (pos : nat) (name : string) : option nat :=
  match name with
  | EmptyString => None
  | String c r =>
      match rfind_dot (S pos) r with
      | Some i => Some i
      | None => if Ascii.eqb c "." then Some pos else None
      end
  end.

(** [PurePath.stem]: the name without its last suffix; a leading or a
    trailing dot does not start a suffix. *)
Definition stem (name : string) : string :=
  match rfind_dot 0 name with
  | Some i =>
      if (0 <? i)%nat && (i <? String.length name - 1)%nat
      then substring 0 i name else name
  | None => name
  end.

(** [s.replace('.gt', '')]: every occurrence, scanning from the left. *)
Fixpoint remove_gt (s : string) : string :=
  match s with
  | EmptyString => EmptyString
  | String c r =>
      match r with
      | String c1 (String c2 r') =>
          if Ascii.eqb c "." && Ascii.eqb c1 "g" && Ascii.eqb c2 "t"
          then remove_gt r' else String c (remove_gt r)
      | _ => String c (remove_gt r)
      end
  end.

(** [base_name = gt_file.stem.replace('.gt', '')] *)
Definition base_name_of (file_name : string) : string :=
  remove_gt (stem file_name).

(** [s.endswith(suf)] *)
Fixpoint ends_with (suf s : string) : bool :=
  String.eqb s suf ||
  match s with
  | EmptyString => false
  | String _ r => ends_with suf r
  end.

(** The names selected by [glob("*.gt.txt")]. *)
Definition is_gt_txt (name : string) : bool := ends_with ".gt.txt" name.

(** The extensions tried for the paired image, in the order of the source. *)
Definition image_exts : list string :=
  [".png"; ".jpg"; ".jpeg"; ".tif"; ".tiff"; ".PNG"; ".JPG"; ".JPEG"].

Fixpoint zeros (k : nat) : string :=
  match k with
  | O => EmptyString
  | S k' => String "0" (zeros k')
  end.

(** [str(n)] for a natural number. *)
Definition decimal (n : nat) : string := NilZero.string_of_uint (Nat.to_uint n).

(** [f"{n:03d}"]: decimal, padded with zeros on the left to width 3. *)
Definition fmt_03d (n : nat) : string :=
  let d := decimal n in zeros (3 - String.length d) +:+ d.

(** The number a string of digits denotes (leading zeros allowed). *)
Definition digits_value (s : string) : nat :=
  match NilEmpty.uint_of_string s with
  | Some d => Nat.of_uint d
  | None => O
  end.

(** [new_base = f"{base_name}_line{line_num:03d}"] *)
Definition new_base (base_name : string) (line_num : nat) : string :=
  base_name +:+ "_line" +:+ fmt_03d line_num.

Definition png_name (base_name : string) (line_num : nat) : string :=
  new_base base_name line_num +:+ ".png".

Definition gt_name (base_name : string) (line_num : nat) : string :=
  new_base base_name line_num +:+ ".gt.txt".

End PyPath.

Import PyPath.

(** ** Band arithmetic *)

Module Geometry.

(** A crop box [(left, upper, right, lower)] as [Image.crop] takes it. *)
Definition box : Type := Z * Z * Z * Z.

Definition upper (b : box) : Z := let '(_, u, _, _) := b in u.
Definition lower (b : box) : Z := let '(_, _, _, l) := b in l.
Definition box_height (b : box) : Z := lower b - upper b.

(** [line_height = img_height // line_count], for [line_count > 0]
    (Python raises [ZeroDivisionError] otherwise, see [split_body]). *)
Definition line_height (img_height : Z) (line_count : nat) : Z :=
  img_height / Z.of_nat line_count.

(** Lines 111 and 112 of the source. *)
Definition y_start (lh : Z) (line_num : nat) : Z :=
  (Z.of_nat line_num - 1) * lh.

Definition y_end (img_height lh : Z) (line_count line_num : nat) : Z :=
  if (line_num <? line_count)%nat then Z.of_nat line_num * lh else img_height.

Definition crop_box (img_width img_height lh : Z) (line_count line_num : nat) : box :=
  (0%Z, y_start lh line_num, img_width, y_end img_height lh line_count line_num).

(** The boxes of the loop [for line_num, line_text in enumerate(lines, 1)],
    one per line that is not skipped. *)
Fixpoint bands_from {A} (img_width img_height lh : Z) (line_count line_num : nat)
    (lines : list (list A)) : list box :=
  match lines with
  | [] => []
  | line_text :: rest =>
      match line_text with
      | [] => bands_from img_width img_height lh line_count (S line_num) rest
      | _ => crop_box img_width img_height lh line_count line_num
             :: bands_from img_width img_height lh line_count (S line_num) rest
      end
  end.

Definition bands {A} (img_width img_height : Z) (lines : list (list A)) : list box :=
  bands_from img_width img_height (line_height img_height (length lines))
    (length lines) 1 lines.

End Geometry.

Import Geometry.

(** ** The imaging library

    Pillow is not part of the repository: its operations are taken as an
    interface. [crop] and [save_png] may raise; [None] and [false] stand
    for that. *)

Class Imaging := {
  image : Type;
  (** [img.size], as [(width, height)] *)
  size : image → Z * Z;
  (** [img.crop((left, upper, right, lower))] *)
  crop : image → box → option image;
  (** whether [cropped.save(path)] with a [.png] path goes through *)
  save_png : image → bool;
}.

(** ** The script *)

Module Splitter.
Section Script.
Context {PIL : Imaging}.

(** An entry of the ground-truth directory: a file that decodes as UTF-8
    text, a file that [Image.open] identifies as an image, or any other
    file. Image data is taken not to decode as UTF-8 (the PNG and JPEG
    signatures do not), and text not to be identified as an image. *)
Inductive node :=
  | TextFile (content : str)
  | ImageFile (img : image)
  | Opaque.

(** The entry [multiline_originals] of the ground-truth directory. *)
Inductive backup_state :=
  | NoBackup
  | BackupDir (entries : gmap string node)
  | BackupNotDir.

Inductive exn :=
  | UnicodeDecodeError
  | FileExistsError
  | FileNotFoundError
  | UnidentifiedImageError
  | ZeroDivisionError
  | ImagingError.

(** What the script prints, one constructor per format string; [Note] is
    a line without parameters. Rules ([=] * 50), blank lines and the three
    fixed lines after [Next steps:] are not recorded. *)
Inductive message :=
  | Note (text : string)
  | ErrDirectoryNotFound
  | InfoFoundMultiline (base_name : string) (line_count : nat)
  | OkAllSingleLine (total_files : nat)
  | MsgFound (multiline total_files : nat)
  | ErrImageNotFound (base_name : string)
  | InfoProcessing (base_name : string)
  | InfoImage (img_width img_height : Z) (line_count : nat)
  | InfoCreated (new_base : string) (chars : nat)
  | OkSplitInto (line_count : nat)
  | ErrFailed (base_name : string) (e : exn)
  | OkSuccessfullySplit (count : nat)
  | InfoMovedTo (backup_dir : string)
  | OkTotalSingleLine (single_line_count : nat).

(** The state the script works on: the entries of the ground-truth
    directory, its backup subdirectory, the counter [total_split] and the
    lines printed so far (oldest first). *)
Record state := State {
  files : gmap string node;
  backup : backup_state;
  total_split : nat;
  console : list message;
}.

Definition with_files (f : gmap string node → gmap string node) (s : state) : state :=
  State (f (files s)) (backup s) (total_split s) (console s).

Definition with_backup (b : backup_state) (s : state) : state :=
  State (files s) b (total_split s) (console s).

(** A statement either finishes or raises, and leaves a state behind in
    both cases. *)
Inductive result (A : Type) :=
  | Ok (a : A) (s : state)
  | Raise (e : exn) (s : state).
Arguments Ok {A} a s.
Arguments Raise {A} e s.

Definition M (A : Type) : Type := state → result A.

Definition ret {A} (a : A) : M A := λ s, Ok a s.

Definition bind {A B} (m : M A) (k : A → M B) : M B :=
  λ s, match m s with
       | Ok a s' => k a s'
       | Raise e s' => Raise e s'
       end.

Definition raise {A} (e : exn) : M A := λ s, Raise e s.

(** [try: body  except Exception as e: handler(e)] *)
Definition try_except (body : M unit) (handler : exn → M unit) : M unit :=
  λ s, match body s with
       | Ok a s' => Ok a s'
       | Raise e s' => handler e s'
       end.

Notation "x <- m ;; k" := (bind m (λ x, k))
  (at level 100, m at next level, right associativity).
Notation "m ;;; k" := (bind m (λ _, k))
  (at level 100, right associativity).

(** [msg], [ok], [info] and [err] *)
Definition said (m : message) (s : state) : state :=
  State (files s) (backup s) (total_split s) (console s ++ [m]).

Definition say (m : message) : M unit := λ s, Ok tt (said m s).

Definition listing : M (gmap string node) := λ s, Ok (files s) s.

(** [Image.open(path)] *)
Definition image_open (name : string) : M image :=
  λ s, match files s !! name with
       | Some (ImageFile img) => Ok img s
       | Some _ => Raise UnidentifiedImageError s
       | None => Raise FileNotFoundError s
       end.

(** What is left of the directory when a file is opened for writing and
    nothing gets written: a file that was there under the name is empty
    (it decodes as the empty text), and a file that was not there is not
    left behind. *)
Definition truncated (name : string) (s : state) : state :=
  match files s !! name with
  | Some _ => with_files (insert name (TextFile [])) s
  | None => s
  end.

(** [cropped.save(path)]. Pillow opens the path with mode [w+b] before it
    encodes the image; when the encoder raises, it closes the file and
    removes it again only if the call had created it. *)
Definition image_save (name : string) (img : image) : M unit :=
  λ s, if save_png img
       then Ok tt (with_files (insert name (ImageFile img)) s)
       else Raise ImagingError (truncated name s).

(** [with open(path, 'w', encoding='utf-8') as f: f.write(text)] *)
Definition write_text (name : string) (text : str) : M unit :=
  λ s, Ok tt (with_files (insert name (TextFile text)) s).

(** [shutil.move(str(path), str(backup_dir / path.name))] *)
Definition move_to_backup (name : string) : M unit :=
  λ s, match files s !! name, backup s with
       | Some n, BackupDir b =>
           Ok tt (with_backup (BackupDir (<[name := n]> b))
                    (with_files (delete name) s))
       | _, _ => Raise FileNotFoundError s
       end.

(** [backup_dir.mkdir(exist_ok=True)] *)
Definition mkdir_backup : M unit :=
  λ s, match backup s with
       | NoBackup => Ok tt (with_backup (BackupDir ∅) s)
       | BackupDir _ => Ok tt s
       | BackupNotDir => Raise FileExistsError s
       end.

Definition incr_total_split : M unit :=
  λ s, Ok tt (State (files s) (backup s) (S (total_split s)) (console s)).

Definition MAX_LINES : nat := 1.

(** [GROUND_TRUTH_DIR.glob("*.gt.txt")], in directory order. *)
Definition glob_gt_txt (fs : gmap string node) : list (string * node) :=
  filter (λ e, is_gt_txt e.1 = true) (map_to_list fs).

(** Lines 49 and 50: open the file as UTF-8 text and keep its stripped
    non-blank lines. Decoding anything but text raises. *)
Definition read_annotation (n : node) : M (list str) :=
  match n with
  | TextFile content => ret (stripped_lines content)
  | _ => raise UnicodeDecodeError
  end.

(** Lines 46 to 57. *)
Fixpoint scan (entries : list (string * node))
    (multiline_files : list (string * list str)) (total_files : nat)
    : M (list (string * list str) * nat) :=
  match entries with
  | [] => ret (multiline_files, total_files)
  | (gt_file, content) :: rest =>
      let total_files := S total_files in
      lines <- read_annotation content ;;
      let line_count := length lines in
      if (MAX_LINES <? line_count)%nat then
        let base_name := base_name_of gt_file in
        say (InfoFoundMultiline base_name line_count) ;;;
        scan rest (multiline_files ++ [(base_name, lines)]) total_files
      else scan rest multiline_files total_files
  end.

(** Lines 79 to 84: the first candidate that exists. *)
Fixpoint find_image (fs : gmap string node) (base_name : string)
    (exts : list string) : option string :=
  match exts with
  | [] => None
  | ext :: rest =>
      let candidate := base_name +:+ ext in
      match fs !! candidate with
      | Some _ => Some candidate
      | None => find_image fs base_name rest
      end
  end.

(** Lines 107 to 128: the body of the loop over the lines. *)
Definition split_line (base_name : string) (img : image)
    (img_width img_height line_height : Z) (line_count line_num : nat)
    (line_text : str) : M unit :=
  if truthy line_text then
    match crop img (crop_box img_width img_height line_height line_count line_num) with
    | None => raise ImagingError
    | Some cropped =>
        image_save (png_name base_name line_num) cropped ;;;
        write_text (gt_name base_name line_num) (line_text ++ [LF])%list ;;;
        say (InfoCreated (new_base base_name line_num) (List.length line_text)) ;;;
        incr_total_split
    end
  else ret tt.

(** Line 106: [for line_num, line_text in enumerate(lines, 1)], entered
    with [line_num = 1]. *)
Fixpoint split_lines (base_name : string) (img : image)
    (img_width img_height line_height : Z) (line_count line_num : nat)
    (lines : list str) : M unit :=
  match lines with
  | [] => ret tt
  | line_text :: rest =>
      split_line base_name img img_width img_height line_height line_count
        line_num line_text ;;;
      split_lines base_name img img_width img_height line_height line_count
        (S line_num) rest
  end.

(** Lines 95 to 135: the body of the [try]. *)
Definition split_body (base_name img_file : string) (lines : list str) : M unit :=
  let gt_file := base_name +:+ ".gt.txt" in
  img <- image_open img_file ;;
  let '(img_width, img_height) := size img in
  let line_count := length lines in
  say (InfoImage img_width img_height line_count) ;;;
  match line_count with
  | O => raise ZeroDivisionError
  | _ =>
      split_lines base_name img img_width img_height
        (line_height img_height line_count) line_count 1 lines ;;;
      move_to_backup img_file ;;;
      move_to_backup gt_file ;;;
      say (OkSplitInto line_count)
  end.

(** Lines 78 to 139: one round of the loop over [multiline_files]. *)
Definition process_record (record : string * list str) : M unit :=
  let '(base_name, lines) := record in
  fs <- listing ;;
  match find_image fs base_name image_exts with
  | None => say (ErrImageNotFound base_name)
  | Some img_file =>
      say (InfoProcessing base_name) ;;;
      try_except (split_body base_name img_file lines)
        (λ e, say (ErrFailed base_name e))
  end.

Fixpoint split_all (multiline_files : list (string * list str)) : M unit :=
  match multiline_files with
  | [] => ret tt
  | record :: rest => process_record record ;;; split_all rest
  end.

(** Lines 39 to 160, once the ground-truth directory is known to exist. *)
Definition main_body : M unit :=
  say (Note "Analyzing ground truth files...") ;;;
  fs <- listing ;;
  scanned <- scan (glob_gt_txt fs) [] 0 ;;
  let '(multiline_files, total_files) := scanned in
  match multiline_files with
  | [] => say (OkAllSingleLine total_files)
  | _ =>
      say (MsgFound (length multiline_files) total_files) ;;;
      say (Note "Splitting multi-line images...") ;;;
      mkdir_backup ;;;
      split_all multiline_files ;;;
      say (Note "Summary") ;;;
      say (OkSuccessfullySplit (length multiline_files)) ;;;
      say (InfoMovedTo "multiline_originals") ;;;
      fs' <- listing ;;
      say (OkTotalSingleLine (length (glob_gt_txt fs'))) ;;;
      say (Note "Next steps:") ;;;
      say (Note "Done!")
  end.

(** The ground-truth directory as the script finds it: its entries and the
    state of [multiline_originals]. *)
Definition disk : Type := gmap string node * backup_state.

Record outcome := Outcome {
  exit_status : Z;
  printed : list message;
  disk_after : option disk;
}.

Definition banner : list message :=
  [Note "Multi-line Image Splitter for Tesseract Training"].

(** [main()] followed by the exit of the interpreter: status 1 after
    [sys.exit(1)] and after an exception nobody caught, 0 otherwise.
    [None] is a missing ground-truth directory. *)
Definition main (root : option disk) : outcome :=
  match root with
  | None => Outcome 1 (banner ++ [ErrDirectoryNotFound]) None
  | Some (fs, b) =>
      match main_body (State fs b 0 banner) with
      | Ok _ s => Outcome 0 (console s) (Some (files s, backup s))
      | Raise _ s => Outcome 1 (console s) (Some (files s, backup s))
      end
  end.

(** The state after line [line_num] has been written, and the lines
    [split_lines] prints for the lines it does not skip. *)
Definition emitted (base_name : string) (line_num : nat) (line_text : str)
    (cropped : image) (s : state) : state :=
  State (<[gt_name base_name line_num := TextFile (line_text ++ [LF])%list]>
           (<[png_name base_name line_num := ImageFile cropped]> (files s)))
        (backup s) (S (total_split s))
        (console s ++ [InfoCreated (new_base base_name line_num) (List.length line_text)]).

Fixpoint created (base_name : string) (line_num : nat) (lines : list str)
    : list message :=
  match lines with
  | [] => []
  | line_text :: rest =>
      (if truthy line_text
       then [InfoCreated (new_base base_name line_num) (List.length line_text)]
       else []) ++ created base_name (S line_num) rest
  end.

(** The lines [scan] prints for the records it keeps. *)
Definition found (records : list (string * list str)) : list message :=
  map (λ r, InfoFoundMultiline r.1 (List.length r.2)) records.

(** The scanner's verdict on one directory entry, in the words of the
    specification: a record for a file whose stripped, non-empty line
    count exceeds 1, nothing otherwise. *)
Definition multiline_record (entry : string * node) : option (string * list str) :=
  match entry.2 with
  | TextFile content =>
      let lines := stripped_lines content in
      if decide (1 < List.length lines)%nat
      then Some (base_name_of entry.1, lines) else None
  | _ => None
  end.

Definition is_text (n : node) : Prop :=
  match n with TextFile _ => True | _ => False end.

#[global] Instance is_text_dec n : Decision (is_text n).
Proof. destruct n; simpl; apply _. Defined.

(** Every [*.gt.txt] entry decodes as text; the records of a directory. *)
Definition readable (fs : gmap string node) : Prop :=
  Forall (λ e, is_text e.2) (glob_gt_txt fs).

Definition records_of (fs : gmap string node) : list (string * list str) :=
  omap multiline_record (glob_gt_txt fs).

(** The state in which the loop over the records starts. *)
Definition scanned (s : state) : state :=
  State (files s) (backup s) (total_split s)
    (console s ++ [Note "Analyzing ground truth files..."]
       ++ found (records_of (files s))).

Definition ready (bk : gmap string node) (s : state) : state :=
  with_backup (BackupDir bk)
    (said (Note "Splitting multi-line images...")
       (said (MsgFound (List.length (records_of (files s)))
                (List.length (glob_gt_txt (files s)))) (scanned s))).

(** Two facts about Pillow the script does not control, for the
    statements that need them: the crop of a box lying inside the image
    has the size of the box, and an image without a pixel is not saved
    ([save] raises). *)
Definition crop_fits : Prop :=
  ∀ img c (x0 y0 x1 y1 : Z),
    (0 ≤ x0 ≤ x1)%Z → (x1 ≤ (size img).1)%Z →
    (0 ≤ y0 ≤ y1)%Z → (y1 ≤ (size img).2)%Z →
    crop img (x0, y0, x1, y1) = Some c → size c = ((x1 - x0)%Z, (y1 - y0)%Z).

Definition refuses_empty : Prop :=
  ∀ img, ((size img).1 = 0 ∨ (size img).2 = 0)%Z → save_png img = false.

(** The lines of the summary, printed after the loop. *)
Definition summary (multiline single_line_count : nat) : list message :=
  [Note "Summary"; OkSuccessfullySplit multiline;
   InfoMovedTo "multiline_originals"; OkTotalSingleLine single_line_count;
   Note "Next steps:"; Note "Done!"].

End Script.

Arguments Ok {PIL A} a s.
Arguments Raise {PIL A} e s.

End Splitter.

(** ** A concrete imaging library

    Grey-level rasters stored row by row. It is used to run the script on
    concrete directories; no general statement below depends on it. *)

Module Raster.

Record raster := Raster {
  raster_width : Z;
  rows : list (list N);
}.

Definition raster_size (r : raster) : Z * Z :=
  (raster_width r, Z.of_nat (List.length (rows r))).

Definition window {A} (lo hi : Z) (l : list A) : list A :=
  take (Z.to_nat (hi - lo)) (drop (Z.to_nat lo) l).

(** A box [(x0, y0, x1, y1)] with [x1 < x0] or [y1 < y0] is refused. *)
Definition raster_crop (r : raster) (b : box) : option raster :=
  let '(x0, y0, x1, y1) := b in
  if (x1 <? x0)%Z || (y1 <? y0)%Z then None
  else Some (Raster (x1 - x0) (map (window x0 x1) (window y0 y1 (rows r)))).

(** An image without a pixel is not written, as in Pillow. *)
Definition raster_save (r : raster) : bool :=
  negb ((raster_width r =? 0)%Z || (Z.of_nat (List.length (rows r)) =? 0)%Z).

#[export] Instance raster_imaging : Imaging := {|
  image := raster;
  size := raster_size;
  crop := raster_crop;
  save_png := raster_save;
|}.

(** An image of the given size, every pixel [0]. *)
Definition blank (w h : nat) : raster :=
  Raster (Z.of_nat w) (replicate h (replicate w 0%N)).

End Raster.

(** ** Concrete directories *)

Module Samples.
Import Splitter Raster.

(** The scenario of the specification: [page1.gt.txt] with three lines and
    a 300 x 90 image (here 3 x 90, the width plays no role). *)
Definition page1 : disk :=
  ({[ "page1.gt.txt" := TextFile (codes "Hello
World
Test
");
      "page1.png" := ImageFile (blank 3 90) ]}, NoBackup).

(** A two-line annotation without any image. *)
Definition orphan : disk :=
  ({[ "p.gt.txt" := TextFile (codes "a
b
") ]}, NoBackup).

(** An annotation whose stem contains [.gt] twice; the image sits under
    the name the script derives. *)
Definition dotted : disk :=
  ({[ "a.gtx.gt.txt" := TextFile (codes "a
b
");
      "ax.png" := ImageFile (blank 2 4) ]}, NoBackup).

(** Two annotations with the same derived base name [a]: [a.gt.gt.txt]
    has two lines, [a.gt.txt] has one. *)
Definition doubled : disk :=
  ({[ "a.gt.gt.txt" := TextFile (codes "x
y
");
      "a.gt.txt" := TextFile (codes "one line
");
      "a.png" := ImageFile (blank 2 4) ]}, NoBackup).

(** A [*.gt.txt] entry that is not UTF-8 text. *)
Definition unreadable : disk :=
  ({[ "x.gt.txt" := Opaque ]}, NoBackup).

(** Three lines over an image two pixel rows high. *)
Definition squeezed : disk :=
  ({[ "s.gt.txt" := TextFile (codes "a
b
c
");
      "s.png" := ImageFile (blank 2 2) ]}, NoBackup).

(** [squeezed] with a file already under the name of the first image. *)
Definition squeezed_again : disk :=
  (<[ "s_line001.png" := ImageFile (blank 1 1) ]> squeezed.1, NoBackup).

(** Only single-line annotations (the second one is blank). *)
Definition singles : disk :=
  ({[ "a.gt.txt" := TextFile (codes "only one line
");
      "b.gt.txt" := TextFile (codes "

") ]}, NoBackup).

(** An annotation whose image sits under the name without [.gt.txt]. *)
Definition suffix_named : disk :=
  ({[ "a.gtx.gt.txt" := TextFile (codes "a
b
");
      "a.gtx.png" := ImageFile (blank 2 4) ]}, NoBackup).

(** What is under a name in the ground-truth directory, and in
    [multiline_originals], after a run. *)
Definition entry (o : outcome) (name : string) : option node :=
  match disk_after o with
  | Some (fs, _) => fs !! name
  | None => None
  end.

Definition archived (o : outcome) (name : string) : option node :=
  match disk_after o with
  | Some (_, BackupDir bk) => bk !! name
  | _ => None
  end.

(** The records that went through, counted on the console. *)
Definition is_split (m : message) : bool :=
  match m with OkSplitInto _ => true | _ => false end.

Definition split_count (out : list message) : nat :=
  List.length (List.filter is_split out).

End Samples.

(** ** What a run may do

    Relations between the state before and after a piece of the script,
    whether it finished or raised, and the counts read off the console. *)

Module Effects.
Import Splitter.

Section Relations.
Context {PIL : Imaging}.

(** The state a statement leaves behind. *)
Definition final {A} (r : result A) : state :=
  match r with
  | Ok _ s => s
  | Raise _ s => s
  end.

(** [m] relates every state to the one it leaves, finished or not. *)
Definition preserves (R : state → state → Prop) {A} (m : M A) : Prop :=
  ∀ s, R s (final (m s)).

(** The names a record with base name [b] moves (line 131 and 132): its
    image under a recognized extension and [b.gt.txt]. *)
Definition moved_name (b name : string) : Prop :=
  name = b +:+ ".gt.txt" ∨ ∃ ext, ext ∈ image_exts ∧ name = b +:+ ext.

(** The names a record with base name [b] may write or move. *)
Definition own_name (b name : string) : Prop :=
  moved_name b name ∨ ∃ i, name = png_name b i ∨ name = gt_name b i.

Definition in_backup (bs : backup_state) (name : string) : Prop :=
  match bs with
  | BackupDir bk => is_Some (bk !! name)
  | _ => False
  end.

Definition is_dir (bs : backup_state) : Prop :=
  match bs with
  | BackupDir _ => True
  | _ => False
  end.

(** Entries under names that belong to no record of [P] are as before. *)
Definition untouched (P : string → Prop) (s s' : state) : Prop :=
  ∀ name, (∀ b, P b → ¬ own_name b name) → files s' !! name = files s !! name.

(** No name is lost: what was in the directory is still there or in
    [multiline_originals], and nothing leaves [multiline_originals]. *)
Definition kept (s s' : state) : Prop :=
  (∀ name, is_Some (files s !! name) →
           is_Some (files s' !! name) ∨ in_backup (backup s') name) ∧
  (∀ name, in_backup (backup s) name → in_backup (backup s') name) ∧
  (is_dir (backup s) → is_dir (backup s')).

End Relations.

(** [Created: ...] lines, line 127. *)
Definition is_created (m : message) : bool :=
  match m with InfoCreated _ _ => true | _ => false end.

Definition created_count (out : list message) : nat :=
  List.length (List.filter is_created out).

(** Lines 19 to 22: [msg], [ok] and [info] print to standard output,
    [err] prints to standard error. [err] is called on lines 36, 87 and
    138. *)
Inductive stream := Stdout | Stderr.

Definition stream_of (m : message) : stream :=
  match m with
  | ErrDirectoryNotFound | ErrImageNotFound _ | ErrFailed _ _ => Stderr
  | _ => Stdout
  end.

Definition to_stderr (m : message) : bool :=
  match stream_of m with Stderr => true | Stdout => false end.

Definition stderr_count (out : list message) : nat :=
  List.length (List.filter to_stderr out).

(** [Split into ... single-line images], line 134. *)
Definition went_through (m : message) : bool :=
  match m with OkSplitInto _ => true | _ => false end.

Definition went_through_count (out : list message) : nat :=
  List.length (List.filter went_through out).

Section Counters.
Context {PIL : Imaging}.

(** [total_split] moves in step with the [Created] lines. *)
Definition counted (s s' : state) : Prop :=
  (total_split s' + created_count (console s)
   = total_split s + created_count (console s'))%nat.

(** The console only grows, and by lines that are no verdict on a
    record. *)
Definition no_verdict (s s' : state) : Prop :=
  ∃ extra, console s' = console s ++ extra ∧
           Forall (λ m, went_through m = false ∧ to_stderr m = false) extra.

End Counters.
End Effects.

(** ** More directories *)

Module Cases.
Import Splitter Raster Samples.

(** [page1] with a single-line annotation next to it. *)
Definition page1_and_other : disk :=
  (<[ "other.gt.txt" := TextFile (codes "just one line
") ]> page1.1, NoBackup).

(** The states in which the loop meets the record of [page1] and the
    record of [dotted], after [multiline_originals] has been made. *)
Definition page1_ready : state := State page1.1 (BackupDir ∅) 0 [].

Definition dotted_ready : state := State dotted.1 (BackupDir ∅) 0 [].

Definition page1_lines : list str := [codes "Hello"; codes "World"; codes "Test"].

Definition page1_text : str := codes "Hello
World
Test
".

End Cases.

(** * Facts *)

(** ** Text *)

Section TextFacts.

Lemma lstrip_split (s : str) :
  ∃ p, s = (p ++ lstrip s)%list ∧ Forall (λ c, isspace c = true) p.
Proof.
  induction s as [|c r [p [Hr Hp]]]; simpl.
  - exists []. split; [reflexivity | constructor].
  - destruct (isspace c) eqn:Hc.
    + exists (c :: p). split; [simpl; congruence | constructor; assumption].
    + exists []. split; [reflexivity | constructor].
Qed.

Lemma lstrip_head (s : str) c r : lstrip s = c :: r → isspace c = false.
Proof.
  induction s as [|d t IH]; simpl; [discriminate|].
  destruct (isspace d) eqn:Hd; [exact IH|].
  intros [= <- _]. exact Hd.
Qed.

Lemma rstrip_split (s : str) :
  ∃ q, s = (rstrip s ++ q)%list ∧ Forall (λ c, isspace c = true) q.
Proof.
  unfold rstrip. destruct (lstrip_split (rev s)) as [p [Hs Hp]].
  exists (rev p). split.
  - rewrite <- rev_app_distr, <- Hs, rev_involutive. reflexivity.
  - apply Forall_rev. exact Hp.
Qed.

Lemma last_rev_head {A} (l : list A) : last (rev l) = head l.
Proof. destruct l as [|a l]; simpl; [reflexivity | apply last_snoc]. Qed.

Lemma rstrip_last (s : str) c : last (rstrip s) = Some c → isspace c = false.
Proof.
  unfold rstrip. rewrite last_rev_head.
  destruct (lstrip (rev s)) as [|d t] eqn:E; simpl; [discriminate|].
  intros [= <-]. eapply lstrip_head. exact E.
Qed.

(** A stripped string neither starts nor ends with white space. *)
Lemma strip_head (s : str) c : head (strip s) = Some c → isspace c = false.
Proof.
  unfold strip. destruct (rstrip_split (lstrip s)) as [q [Hs _]].
  destruct (rstrip (lstrip s)) as [|d t] eqn:E; simpl; [discriminate|].
  intros [= <-]. simpl in Hs. eapply lstrip_head. exact Hs.
Qed.

Lemma strip_last (s : str) c : last (strip s) = Some c → isspace c = false.
Proof. unfold strip. apply rstrip_last. Qed.

Lemma truthy_nonempty (s : str) : truthy s = true ↔ s ≠ [].
Proof. destruct s; simpl; split; congruence. Qed.

(** Every line kept by the scanner is non-empty. *)
Lemma stripped_lines_truthy (content : str) :
  Forall (λ line, truthy line = true) (stripped_lines content).
Proof.
  unfold stripped_lines. apply Forall_fmap, Forall_forall.
  intros line Hin. apply list_elem_of_filter in Hin as [Hline _]. exact Hline.
Qed.

(** ... and is the stripped form of a line of the file. *)
Lemma stripped_lines_elem (content : str) (line : str) :
  line ∈ stripped_lines content ↔
  ∃ raw, raw ∈ file_lines content ∧ line = strip raw ∧ line ≠ [].
Proof.
  unfold stripped_lines. rewrite list_elem_of_fmap. split.
  - intros [raw [-> Hin]]. apply list_elem_of_filter in Hin as [Ht Hin].
    exists raw. split; [exact Hin|]. split; [reflexivity|].
    apply truthy_nonempty. exact Ht.
  - intros [raw [Hin [-> Hne]]]. exists raw. split; [reflexivity|].
    apply list_elem_of_filter. split; [|exact Hin].
    apply truthy_nonempty. exact Hne.
Qed.

End TextFacts.

(** ** File names *)

Section PathFacts.

Lemma app_nil_s (s : string) : "" +:+ s = s.
Proof. reflexivity. Qed.

Lemma app_cons_s (c : ascii) (r s : string) :
  String c r +:+ s = String c (r +:+ s).
Proof. reflexivity. Qed.

Lemma ends_with_iff (suf s : string) :
  ends_with suf s = true ↔ ∃ x, s = x +:+ suf.
Proof.
  induction s as [|c r IH]; cbn [ends_with].
  - rewrite orb_false_r, String.eqb_eq. split.
    + intros <-. exists "". reflexivity.
    + intros [[|d x] Hx]; [rewrite app_nil_s in Hx; exact Hx|].
      rewrite app_cons_s in Hx. discriminate.
  - rewrite orb_true_iff, String.eqb_eq, IH. split.
    + intros [<- | [x ->]]; [exists "" | exists (String c x)]; reflexivity.
    + intros [[|d x] Hx].
      * left. exact Hx.
      * right. rewrite app_cons_s in Hx. injection Hx as _ ->.
        exists x. reflexivity.
Qed.

Lemma rfind_dot_gt_txt (x : string) (pos : nat) :
  rfind_dot pos (x +:+ ".gt.txt") = Some (pos + String.length x + 3)%nat.
Proof.
  revert pos. induction x as [|c r IH]; intros pos.
  - simpl. f_equal. lia.
  - rewrite app_cons_s. cbn [rfind_dot String.length]. rewrite IH. f_equal. lia.
Qed.

Lemma substring_app_l (x y : string) :
  substring 0 (String.length x) (x +:+ y) = x.
Proof.
  induction x as [|c r IH].
  - destruct y; reflexivity.
  - rewrite app_cons_s. simpl. rewrite IH. reflexivity.
Qed.

Lemma length_app (x y : string) :
  String.length (x +:+ y) = (String.length x + String.length y)%nat.
Proof.
  induction x as [|c r IH]; [reflexivity|].
  rewrite app_cons_s. simpl. rewrite IH. reflexivity.
Qed.

Lemma app_assoc_s (x y z : string) : (x +:+ y) +:+ z = x +:+ (y +:+ z).
Proof.
  induction x as [|c r IH]; [reflexivity|].
  rewrite !app_cons_s, IH. reflexivity.
Qed.

(** The stem of [x.gt.txt] is [x.gt]. *)
Lemma stem_gt_txt (x : string) : stem (x +:+ ".gt.txt") = x +:+ ".gt".
Proof.
  unfold stem. rewrite rfind_dot_gt_txt, length_app. simpl String.length.
  replace (0 <? 0 + String.length x + 3)%nat with true
    by (symmetry; apply Nat.ltb_lt; lia).
  replace (0 + String.length x + 3 <? String.length x + 7 - 1)%nat with true
    by (symmetry; apply Nat.ltb_lt; lia).
  simpl andb. cbv iota.
  change (x +:+ ".gt.txt") with (x +:+ (".gt" +:+ ".txt")).
  rewrite <- app_assoc_s.
  replace (0 + String.length x + 3)%nat with (String.length (x +:+ ".gt"))
    by (rewrite length_app; simpl; lia).
  apply substring_app_l.
Qed.

(** [str.replace('.gt', '')], one step at a time. *)
Lemma remove_gt_here (r : string) : remove_gt (".gt" +:+ r) = remove_gt r.
Proof. reflexivity. Qed.

Lemma remove_gt_skip (c : ascii) (r : string) :
  (∀ r', String c r ≠ ".gt" +:+ r') →
  remove_gt (String c r) = String c (remove_gt r).
Proof.
  intros Hno. destruct r as [|c1 [|c2 r']]; try reflexivity.
  cbn [remove_gt].
  destruct (Ascii.eqb_spec c "."); [|reflexivity].
  destruct (Ascii.eqb_spec c1 "g"); [|reflexivity].
  destruct (Ascii.eqb_spec c2 "t"); [|reflexivity].
  subst. exfalso. apply (Hno r'). reflexivity.
Qed.

Lemma starts_gt_dec (s : string) :
  {r | s = ".gt" +:+ r} + {∀ r, s ≠ ".gt" +:+ r}.
Proof.
  destruct s as [|c [|c1 [|c2 r]]];
    try (right; intros r'; rewrite !app_cons_s; discriminate).
  destruct (Ascii.eqb_spec c ".") as [->|Hc];
    [|right; intros r'; rewrite !app_cons_s; congruence].
  destruct (Ascii.eqb_spec c1 "g") as [->|Hc1];
    [|right; intros r'; rewrite !app_cons_s; congruence].
  destruct (Ascii.eqb_spec c2 "t") as [->|Hc2];
    [|right; intros r'; rewrite !app_cons_s; congruence].
  left. exists r. reflexivity.
Qed.

Lemma remove_gt_length (s : string) :
  (String.length (remove_gt s) ≤ String.length s)%nat.
Proof.
  remember (String.length s) as n eqn:Hn. revert s Hn.
  induction n as [n IH] using lt_wf_ind. intros s Hn.
  destruct s as [|c r]; [simpl; lia|].
  destruct (starts_gt_dec (String c r)) as [[r' Hr]|Hno].
  - rewrite Hr, remove_gt_here. rewrite Hr, length_app in Hn.
    cbn [String.length] in Hn.
    specialize (IH (String.length r') ltac:(lia) r' eq_refl). lia.
  - rewrite remove_gt_skip by exact Hno. cbn [String.length] in *.
    specialize (IH (String.length r) ltac:(lia) r eq_refl). lia.
Qed.

(** The [.gt] that ends the stem goes, and so does every other one. *)
Lemma remove_gt_app_gt (x : string) : remove_gt (x +:+ ".gt") = remove_gt x.
Proof.
  remember (String.length x) as n eqn:Hn. revert x Hn.
  induction n as [n IH] using lt_wf_ind. intros x Hn.
  destruct x as [|c r]; [reflexivity|].
  destruct (starts_gt_dec (String c r)) as [[r' Hr]|Hno].
  - rewrite Hr. rewrite app_assoc_s, !remove_gt_here.
    apply (IH (String.length r')); [|reflexivity].
    rewrite Hn, Hr, length_app. cbn [String.length]. lia.
  - rewrite app_cons_s, (remove_gt_skip c r Hno).
    rewrite remove_gt_skip.
    + f_equal. apply (IH (String.length r)); [|reflexivity].
      rewrite Hn. cbn [String.length]. lia.
    + intros r' Hr'. destruct r as [|c1 [|c2 r2]];
        rewrite ?app_cons_s, ?app_nil_s in Hr'; try discriminate.
      injection Hr' as -> -> -> _. apply (Hno r2). reflexivity.
Qed.

(** [remove_gt] changes nothing exactly on the strings without [.gt]. *)
Lemma remove_gt_id_iff (x : string) :
  remove_gt x = x ↔ ¬ ∃ p q, x = p +:+ ".gt" +:+ q.
Proof.
  split.
  - intros Hid [p [q Hx]].
    assert (Hlt : (String.length (remove_gt x) < String.length x)%nat);
      [|rewrite Hid in Hlt; lia].
    clear Hid. subst x. induction p as [|c p IH].
    + rewrite app_nil_s, remove_gt_here.
      pose proof (remove_gt_length q). rewrite length_app.
      cbn [String.length]. lia.
    + rewrite app_cons_s.
      destruct (starts_gt_dec (String c (p +:+ ".gt" +:+ q))) as [[r' Hr]|Hno].
      * rewrite Hr, remove_gt_here.
        pose proof (remove_gt_length r'). rewrite length_app.
        cbn [String.length]. lia.
      * rewrite remove_gt_skip by exact Hno. cbn [String.length]. lia.
  - intros Hno. induction x as [|c r IH]; [reflexivity|].
    rewrite remove_gt_skip.
    + f_equal. apply IH. intros [p [q Hr]]. apply Hno.
      exists (String c p), q. rewrite app_cons_s, Hr. reflexivity.
    + intros r' Hr. apply Hno. exists "", r'. exact Hr.
Qed.

(** The base name the scanner derives from [x.gt.txt]. *)
Lemma base_name_of_gt_txt (x : string) :
  base_name_of (x +:+ ".gt.txt") = remove_gt x.
Proof. unfold base_name_of. rewrite stem_gt_txt. apply remove_gt_app_gt. Qed.

(** *** The zero-padded line number *)

Lemma digits_value_decimal (n : nat) : digits_value (decimal n) = n.
Proof.
  unfold digits_value, decimal.
  pose proof (Unsigned.of_to n) as Hn.
  destruct (Nat.to_uint n) eqn:E;
    try (unfold NilZero.string_of_uint; rewrite NilEmpty.usu; exact Hn).
  simpl in *. exact Hn.
Qed.

Lemma digits_value_zeros (k : nat) (s : string) :
  digits_value (zeros k +:+ s) = digits_value s.
Proof.
  induction k as [|k IH]; [reflexivity|].
  cbn [zeros]. rewrite app_cons_s. rewrite <- IH.
  unfold digits_value. cbn [NilEmpty.uint_of_string].
  destruct (NilEmpty.uint_of_string (zeros k +:+ s)); reflexivity.
Qed.

Lemma digits_value_fmt_03d (n : nat) : digits_value (fmt_03d n) = n.
Proof.
  unfold fmt_03d. rewrite digits_value_zeros. apply digits_value_decimal.
Qed.

Lemma fmt_03d_inj (i j : nat) : fmt_03d i = fmt_03d j → i = j.
Proof.
  intros H. rewrite <- (digits_value_fmt_03d i), <- (digits_value_fmt_03d j).
  rewrite H. reflexivity.
Qed.

Lemma length_zeros (k : nat) : String.length (zeros k) = k.
Proof. induction k; simpl; congruence. Qed.

(** The field is at least three characters wide, and exactly as wide as
    the number when that needs more. *)
Lemma fmt_03d_length (n : nat) :
  String.length (fmt_03d n) = Nat.max 3 (String.length (decimal n)).
Proof. unfold fmt_03d. rewrite length_app, length_zeros. lia. Qed.

(** *** Output names never clash *)

Lemma snoc_inj (a b : string) (c d : ascii) :
  a +:+ String c "" = b +:+ String d "" → a = b ∧ c = d.
Proof.
  revert b. induction a as [|x a IH]; intros [|y b]; rewrite ?app_cons_s, ?app_nil_s.
  - intros [= ->]. split; reflexivity.
  - intros [= -> H]. destruct b; rewrite ?app_cons_s, ?app_nil_s in H; discriminate.
  - intros [= -> H]. destruct a; rewrite ?app_cons_s, ?app_nil_s in H; discriminate.
  - intros [= -> H]. destruct (IH _ H) as [-> ->]. split; reflexivity.
Qed.

Lemma app_inj_r (a b t : string) : a +:+ t = b +:+ t → a = b.
Proof.
  revert a b. induction t as [|c t IH]; intros a b H.
  - assert (Hr : ∀ s, s +:+ "" = s).
    { induction s as [|x s IHs]; [reflexivity|]. rewrite app_cons_s, IHs. reflexivity. }
    rewrite !Hr in H. exact H.
  - change (String c t) with (String c "" +:+ t) in H.
    rewrite <- !app_assoc_s in H. apply IH in H.
    apply snoc_inj in H as [H _]. exact H.
Qed.

Lemma png_name_inj (b : string) (i j : nat) : png_name b i = png_name b j → i = j.
Proof.
  unfold png_name, new_base. intros H. apply app_inj_r in H.
  apply String.app_inj, String.app_inj in H. apply fmt_03d_inj. exact H.
Qed.

Lemma gt_name_inj (b : string) (i j : nat) : gt_name b i = gt_name b j → i = j.
Proof.
  unfold gt_name, new_base. intros H. apply app_inj_r in H.
  apply String.app_inj, String.app_inj in H. apply fmt_03d_inj. exact H.
Qed.

Lemma png_name_ne_gt_name (b b' : string) (i j : nat) : png_name b i ≠ gt_name b' j.
Proof.
  unfold png_name, gt_name. intros H.
  change ".png" with (".pn" +:+ String "g" "") in H.
  change ".gt.txt" with (".gt.tx" +:+ String "t" "") in H.
  rewrite <- !app_assoc_s in H. apply snoc_inj in H as [_ H]. discriminate.
Qed.

(** An output name is never [base_name] followed by a dot suffix, so it is
    neither the image found for the record nor [base_name.gt.txt]. *)
Lemma new_base_ne_dotted (b t s : string) (i : nat) :
  new_base b i +:+ t ≠ b +:+ String "." s.
Proof.
  unfold new_base. rewrite !app_assoc_s. intros H.
  apply String.app_inj in H. rewrite !app_cons_s in H. discriminate.
Qed.

End PathFacts.

(** ** Bands *)

Section BandFacts.
Local Open Scope Z_scope.

Variables (W H : Z) (N : nat).
Hypothesis HN : (1 ≤ N)%nat.
Hypothesis HH : 0 ≤ H.

Local Abbreviation lh := (line_height H N).
Local Abbreviation band i := (crop_box W H (line_height H N) N i).

Lemma line_height_bounds : 0 ≤ lh ∧ Z.of_nat N * lh ≤ H < Z.of_nat N * lh + Z.of_nat N.
Proof.
  unfold line_height.
  pose proof (Z.div_mod H (Z.of_nat N) ltac:(lia)) as Hdm.
  pose proof (Z.mod_pos_bound H (Z.of_nat N) ltac:(lia)) as Hmod.
  assert (0 ≤ H / Z.of_nat N) by (apply Z.div_pos; lia).
  lia.
Qed.

Lemma band_upper (i : nat) : upper (band i) = (Z.of_nat i - 1) * lh.
Proof. reflexivity. Qed.

Lemma band_lower_inner (i : nat) : (i < N)%nat → lower (band i) = Z.of_nat i * lh.
Proof.
  intros Hi. unfold crop_box, lower, y_end.
  apply Nat.ltb_lt in Hi. rewrite Hi. reflexivity.
Qed.

Lemma band_lower_last (i : nat) : (N ≤ i)%nat → lower (band i) = H.
Proof.
  intros Hi. unfold crop_box, lower, y_end.
  apply Nat.ltb_ge in Hi. rewrite Hi. reflexivity.
Qed.

Lemma band_ordered (i : nat) :
  (1 ≤ i ≤ N)%nat → 0 ≤ upper (band i) ≤ lower (band i) ∧ lower (band i) ≤ H.
Proof.
  intros Hi. pose proof line_height_bounds as [Hlh [Hle _]].
  rewrite band_upper.
  destruct (decide (i < N)%nat) as [Hlt|Hge].
  - rewrite band_lower_inner by exact Hlt. nia.
  - rewrite band_lower_last by lia. nia.
Qed.

Lemma band_contiguous (i : nat) :
  (1 ≤ i < N)%nat → upper (band (S i)) = lower (band i).
Proof.
  intros Hi. rewrite band_upper, band_lower_inner by lia. lia.
Qed.

Lemma band_before (i j : nat) :
  (1 ≤ i < j)%nat → (j ≤ N)%nat → lower (band i) ≤ upper (band j).
Proof.
  intros Hij Hj. pose proof line_height_bounds as [Hlh _].
  rewrite band_upper, band_lower_inner by lia. nia.
Qed.

(** Every pixel row lies in some band. *)
Lemma band_cover (y : Z) :
  0 ≤ y < H → ∃ i, (1 ≤ i ≤ N)%nat ∧ upper (band i) ≤ y < lower (band i).
Proof.
  intros Hy. pose proof line_height_bounds as [Hlh [Hle Hlt]].
  destruct (decide (lh = 0)) as [Hz|Hnz].
  - exists N. rewrite band_upper, band_lower_last by lia. rewrite Hz. lia.
  - pose proof (Z.div_mod y lh Hnz) as Hdm.
    pose proof (Z.mod_pos_bound y lh ltac:(lia)) as Hmod.
    assert (0 ≤ y / lh) by (apply Z.div_pos; lia).
    destruct (decide (y / lh + 1 < Z.of_nat N)) as [Hin|Hout].
    + exists (Z.to_nat (y / lh + 1)). split; [lia|].
      rewrite band_upper, band_lower_inner by lia. nia.
    + exists N. rewrite band_upper, band_lower_last by lia. nia.
Qed.

(** No pixel row lies in two bands. *)
Lemma band_unique (i j : nat) (y : Z) :
  (1 ≤ i ≤ N)%nat → (1 ≤ j ≤ N)%nat →
  upper (band i) ≤ y < lower (band i) →
  upper (band j) ≤ y < lower (band j) → i = j.
Proof.
  intros Hi Hj Hyi Hyj.
  destruct (Nat.lt_trichotomy i j) as [Hlt | [Heq | Hgt]]; [|exact Heq|].
  - pose proof (band_before i j ltac:(lia) ltac:(lia)). lia.
  - pose proof (band_before j i ltac:(lia) ltac:(lia)). lia.
Qed.

End BandFacts.

(** When no line is empty the loop yields one box per line number. *)
Lemma bands_from_all {A} (W H lh : Z) (N k : nat) (lines : list (list A)) :
  Forall (λ l, l ≠ []) lines →
  bands_from W H lh N k lines = map (crop_box W H lh N) (seq k (List.length lines)).
Proof.
  revert k. induction lines as [|l rest IH]; intros k Hne; [reflexivity|].
  inversion Hne as [|? ? Hl Hrest]; subst.
  cbn [bands_from List.length seq map]. destruct l as [|a l]; [congruence|].
  rewrite IH by exact Hrest. reflexivity.
Qed.

(** ** The script *)

Import Splitter.

Section ScriptFacts.
Context {PIL : Imaging}.

(** *** Sequencing *)

Lemma bind_Ok_inv {A B} (m : M A) (k : A → M B) s b s2 :
  bind m k s = Ok b s2 → ∃ a s1, m s = Ok a s1 ∧ k a s1 = Ok b s2.
Proof.
  unfold bind. destruct (m s) as [a s1|e s1]; [|discriminate].
  intros Hk. exists a, s1. split; [reflexivity | exact Hk].
Qed.

Lemma bind_Raise_inv {A B} (m : M A) (k : A → M B) s e s2 :
  bind m k s = Raise e s2 →
  m s = Raise e s2 ∨ ∃ a s1, m s = Ok a s1 ∧ k a s1 = Raise e s2.
Proof.
  unfold bind. destruct (m s) as [a s1|e1 s1].
  - intros Hk. right. exists a, s1. split; [reflexivity | exact Hk].
  - intros [= -> ->]. left. reflexivity.
Qed.

Lemma bind_Ok {A B} (m : M A) (k : A → M B) s a s1 :
  m s = Ok a s1 → bind m k s = k a s1.
Proof. unfold bind. intros ->. reflexivity. Qed.

Lemma bind_Raise {A B} (m : M A) (k : A → M B) s e s1 :
  m s = Raise e s1 → bind m k s = Raise e s1.
Proof. unfold bind. intros ->. reflexivity. Qed.

(** *** One line *)

Lemma split_line_Ok b img W H lh N k text s s' :
  split_line b img W H lh N k text s = Ok tt s' →
  (text = [] ∧ s' = s) ∨
  (text ≠ [] ∧ ∃ c, crop img (crop_box W H lh N k) = Some c ∧
                    save_png c = true ∧ s' = emitted b k text c s).
Proof.
  unfold split_line. destruct text as [|a t]; cbn [truthy].
  - intros [= <-]. left. split; reflexivity.
  - destruct (crop img _) as [c|]; [|discriminate].
    unfold bind, image_save. destruct (save_png c) eqn:Hs; [|discriminate].
    cbn. intros [= <-]. right. split; [discriminate|].
    exists c. repeat split. exact Hs.
Qed.

(** A line fails in the crop, before anything is opened, or in the save,
    which has opened the image's name for writing. *)
Lemma split_line_Raise b img W H lh N k text s e s' :
  split_line b img W H lh N k text s = Raise e s' →
  text ≠ [] ∧ e = ImagingError ∧
  ((crop img (crop_box W H lh N k) = None ∧ s' = s) ∨
   (∃ c, crop img (crop_box W H lh N k) = Some c ∧ save_png c = false ∧
         s' = truncated (png_name b k) s)).
Proof.
  unfold split_line. destruct text as [|a t]; cbn [truthy]; [discriminate|].
  destruct (crop img _) as [c|].
  - unfold bind, image_save. destruct (save_png c) eqn:Hs; cbn; [discriminate|].
    intros [= <- <-]. split; [discriminate|]. split; [reflexivity|].
    right. exists c. repeat split. exact Hs.
  - intros [= <- <-]. split; [discriminate|]. split; [reflexivity|].
    left. split; reflexivity.
Qed.

Lemma truncated_lookup name s name' :
  files (truncated name s) !! name' =
  if decide (name' = name)
  then match files s !! name with Some _ => Some (TextFile []) | None => None end
  else files s !! name'.
Proof.
  unfold truncated. destruct (files s !! name) as [n|] eqn:Hn.
  - cbn. destruct (decide (name' = name)) as [->|Hne].
    + apply lookup_insert_eq.
    + apply lookup_insert_ne. congruence.
  - destruct (decide (name' = name)) as [->|Hne]; [exact Hn | reflexivity].
Qed.

Lemma truncated_rest name s :
  backup (truncated name s) = backup s ∧
  total_split (truncated name s) = total_split s ∧
  console (truncated name s) = console s.
Proof. unfold truncated. destruct (files s !! name); repeat split. Qed.

(** *** The loop over the lines *)

Lemma split_lines_Ok b img W H lh N lines : ∀ k s s',
  split_lines b img W H lh N k lines s = Ok tt s' →
  backup s' = backup s ∧
  total_split s' = (total_split s + List.length (filter (λ l, l ≠ []) lines))%nat ∧
  console s' = console s ++ created b k lines ∧
  (∀ name, (∀ j, (j < List.length lines)%nat →
              name ≠ png_name b (k + j) ∧ name ≠ gt_name b (k + j)) →
           files s' !! name = files s !! name) ∧
  (∀ j text, lines !! j = Some text → text ≠ [] →
     ∃ c, crop img (crop_box W H lh N (k + j)) = Some c ∧ save_png c = true ∧
          files s' !! png_name b (k + j) = Some (ImageFile c) ∧
          files s' !! gt_name b (k + j) = Some (TextFile (text ++ [LF])%list)).
Proof.
  induction lines as [|t rest IH]; intros k s s'.
  - cbn. intros [= <-]. rewrite app_nil_r, Nat.add_0_r.
    repeat split; try reflexivity. intros j text Hj. discriminate.
  - cbn [split_lines]. intros Hrun.
    apply bind_Ok_inv in Hrun as ([] & s1 & Hline & Hrest).
    destruct (IH _ _ _ Hrest) as (Hb & Ht & Hc & Hframe & Hout).
    assert (Hframe1 : ∀ name, name ≠ png_name b k → name ≠ gt_name b k →
                      files s1 !! name = files s !! name).
    { intros name Hp Hg. apply split_line_Ok in Hline as [[_ ->]|(_ & c & _ & _ & ->)];
        [reflexivity|]. unfold emitted. cbn.
      rewrite !lookup_insert_ne by congruence. reflexivity. }
    split; [|split; [|split; [|split]]].
    + rewrite Hb. apply split_line_Ok in Hline as [[_ ->]|(_ & c & _ & _ & ->)]; reflexivity.
    + rewrite Ht. apply split_line_Ok in Hline as [[-> ->]|(Hne & c & _ & _ & ->)].
      * rewrite filter_cons_False by (intros Hx; apply Hx; reflexivity). reflexivity.
      * rewrite filter_cons_True by exact Hne. unfold emitted. cbn.
        rewrite Nat.add_succ_r. reflexivity.
    + rewrite Hc. cbn [created].
      apply split_line_Ok in Hline as [[-> ->]|(Hne & c & _ & _ & ->)].
      * reflexivity.
      * destruct t; [congruence|]. unfold emitted. cbn. rewrite <- app_assoc. reflexivity.
    + intros name Hname. rewrite Hframe.
      * destruct (Hname 0%nat ltac:(cbn; lia)) as [Hp Hg].
        rewrite Nat.add_0_r in Hp, Hg. apply Hframe1; assumption.
      * intros j Hj. replace (S k + j)%nat with (k + S j)%nat by lia.
        apply Hname. cbn. lia.
    + intros [|j] text Hj Hne.
      * cbn in Hj. injection Hj as ->. rewrite Nat.add_0_r.
        apply split_line_Ok in Hline as [[-> _]|(_ & c & Hcrop & Hsave & ->)];
          [congruence|].
        exists c. split; [exact Hcrop|]. split; [exact Hsave|].
        rewrite !Hframe.
        -- unfold emitted. cbn. rewrite lookup_insert_eq.
           rewrite lookup_insert_ne by (apply not_eq_sym, png_name_ne_gt_name).
           rewrite lookup_insert_eq. split; reflexivity.
        -- intros j _. split.
           ++ intros Heq. symmetry in Heq. apply png_name_ne_gt_name in Heq. exact Heq.
           ++ intros Heq. apply gt_name_inj in Heq. lia.
        -- intros j _. split.
           ++ intros Heq. apply png_name_inj in Heq. lia.
           ++ apply png_name_ne_gt_name.
      * cbn in Hj. replace (k + S j)%nat with (S k + j)%nat by lia.
        apply Hout; assumption.
Qed.

(** When the loop raises, the lines before the failing line have gone
    through and the failing line starts from the state they left: nothing
    is rolled back. *)
Lemma split_lines_Raise b img W H lh N lines : ∀ k s e s',
  split_lines b img W H lh N k lines s = Raise e s' →
  e = ImagingError ∧
  ∃ done t rest s0, lines = done ++ t :: rest ∧ t ≠ [] ∧
    split_lines b img W H lh N k done s = Ok tt s0 ∧
    split_line b img W H lh N (k + List.length done) t s0 = Raise e s'.
Proof.
  induction lines as [|t rest IH]; intros k s e s'; [discriminate|].
  cbn [split_lines]. intros Hrun.
  apply bind_Raise_inv in Hrun as [Hline | ([] & s1 & Hline & Hrest)].
  - pose proof (split_line_Raise _ _ _ _ _ _ _ _ _ _ _ Hline) as (Hne & -> & _).
    split; [reflexivity|]. exists [], t, rest, s.
    rewrite Nat.add_0_r. repeat split; [exact Hne | exact Hline].
  - destruct (IH _ _ _ _ Hrest)
      as (-> & done & t' & rest' & s0 & -> & Hne & Hdone & Hfail).
    split; [reflexivity|]. exists (t :: done), t', rest', s0.
    split; [reflexivity|]. split; [exact Hne|]. split.
    + cbn [split_lines]. rewrite (bind_Ok _ _ _ _ _ Hline). exact Hdone.
    + cbn [List.length]. replace (k + S (List.length done))%nat
        with (S k + List.length done)%nat by lia. exact Hfail.
Qed.

(** *** The paired image *)

Lemma find_image_Some fs b exts f :
  find_image fs b exts = Some f →
  ∃ pre ext post, exts = pre ++ ext :: post ∧ f = b +:+ ext ∧
    is_Some (fs !! f) ∧ Forall (λ e, fs !! (b +:+ e) = None) pre.
Proof.
  induction exts as [|ext rest IH]; [discriminate|].
  cbn [find_image]. destruct (fs !! (b +:+ ext)) as [n|] eqn:Hn.
  - intros [= <-]. exists [], ext, rest. rewrite Hn. repeat split; eauto.
  - intros Hrest. destruct (IH Hrest) as (pre & e & post & -> & -> & Hex & Hpre).
    exists (ext :: pre), e, post. repeat split; [exact Hex|].
    constructor; assumption.
Qed.

Lemma find_image_None fs b exts :
  find_image fs b exts = None ↔ Forall (λ e, fs !! (b +:+ e) = None) exts.
Proof.
  induction exts as [|ext rest IH]; cbn [find_image].
  - split; [constructor | reflexivity].
  - destruct (fs !! (b +:+ ext)) as [n|] eqn:Hn.
    + split; [discriminate|]. intros Hall. inversion Hall; congruence.
    + rewrite IH. split; [constructor; assumption|].
      intros Hall. inversion Hall; assumption.
Qed.

Lemma image_exts_dotted :
  Forall (λ e, ∃ t, e = String "." t) image_exts.
Proof. repeat constructor; eexists; reflexivity. Qed.

Lemma find_image_dotted fs b f :
  find_image fs b image_exts = Some f → ∃ t, f = b +:+ String "." t.
Proof.
  intros Hf. apply find_image_Some in Hf as (pre & ext & post & Hexts & -> & _).
  pose proof image_exts_dotted as Hd. rewrite Hexts in Hd.
  apply Forall_app in Hd as [_ Hd]. inversion Hd as [|? ? [t ->] _]; subst.
  exists t. reflexivity.
Qed.

(** *** The body of the [try] *)

Lemma split_body_Ok b f lines s s' :
  split_body b f lines s = Ok tt s' →
  ∃ img s1 n_f n_gt bk,
    files s !! f = Some (ImageFile img) ∧ lines ≠ [] ∧
    split_lines b img (size img).1 (size img).2
      (line_height (size img).2 (List.length lines)) (List.length lines) 1 lines
      (said (InfoImage (size img).1 (size img).2 (List.length lines)) s) = Ok tt s1 ∧
    files s1 !! f = Some n_f ∧
    files s1 !! (b +:+ ".gt.txt") = Some n_gt ∧ f ≠ b +:+ ".gt.txt" ∧
    backup s1 = BackupDir bk ∧
    s' = said (OkSplitInto (List.length lines))
           (State (delete (b +:+ ".gt.txt") (delete f (files s1)))
                  (BackupDir (<[b +:+ ".gt.txt" := n_gt]> (<[f := n_f]> bk)))
                  (total_split s1) (console s1)).
Proof.
  unfold split_body. intros Hrun.
  apply bind_Ok_inv in Hrun as (img & sa & Hopen & Hrun).
  unfold image_open in Hopen.
  destruct (files s !! f) as [[c|img'|]|] eqn:Hf; try discriminate.
  injection Hopen as -> ->.
  destruct (size img) as [W H] eqn:Hsize. cbn [fst snd].
  apply bind_Ok_inv in Hrun as ([] & s0 & Hsay & Hrun).
  injection Hsay as <-.
  destruct lines as [|l0 rest]; [discriminate|].
  cbn [List.length] in Hrun. cbv iota in Hrun.
  apply bind_Ok_inv in Hrun as ([] & s1 & Hloop & Hrun).
  apply bind_Ok_inv in Hrun as ([] & s2 & Hmv1 & Hrun).
  apply bind_Ok_inv in Hrun as ([] & s3 & Hmv2 & Hrun).
  injection Hrun as <-.
  unfold move_to_backup in Hmv1.
  destruct (files s1 !! f) as [n_f|] eqn:Hf1; [|discriminate].
  destruct (backup s1) as [|bk|] eqn:Hbk; try discriminate.
  injection Hmv1 as <-.
  unfold move_to_backup in Hmv2. cbn in Hmv2.
  destruct (delete f (files s1) !! (b +:+ ".gt.txt")) as [n_gt|] eqn:Hgt; [|discriminate].
  injection Hmv2 as <-.
  apply lookup_delete_Some in Hgt as [Hne Hgt].
  exists img, s1, n_f, n_gt, bk. rewrite Hsize. cbn [fst snd].
  split; [reflexivity|]. split; [discriminate|].
  split; [exact Hloop|]. split; [exact Hf1|]. split; [exact Hgt|].
  split; [exact Hne|]. split; [exact Hbk|]. reflexivity.
Qed.

(** *** One record *)

Lemma process_record_cases b lines s :
  (find_image (files s) b image_exts = None ∧
   process_record (b, lines) s = Ok tt (said (ErrImageNotFound b) s)) ∨
  (∃ f, find_image (files s) b image_exts = Some f ∧
     ((∃ s', split_body b f lines (said (InfoProcessing b) s) = Ok tt s' ∧
             process_record (b, lines) s = Ok tt s') ∨
      (∃ e s1, split_body b f lines (said (InfoProcessing b) s) = Raise e s1 ∧
               process_record (b, lines) s = Ok tt (said (ErrFailed b e) s1)))).
Proof.
  unfold process_record, bind, listing.
  destruct (find_image (files s) b image_exts) as [f|].
  - right. exists f. split; [reflexivity|].
    unfold say, try_except. cbv beta iota.
    destruct (split_body b f lines (said (InfoProcessing b) s)) as [[] s'|e s1].
    + left. exists s'. split; reflexivity.
    + right. exists e, s1. split; reflexivity.
  - left. split; reflexivity.
Qed.

(** Nothing raised inside a record gets out of it. *)
Lemma process_record_total record s : ∃ s', process_record record s = Ok tt s'.
Proof.
  destruct record as [b lines].
  destruct (process_record_cases b lines s)
    as [[_ H] | (f & _ & [(s' & _ & H) | (e & s1 & _ & H)])]; eauto.
Qed.

(** The record went through exactly when its last line on the console is
    [Split into ... single-line images]. *)
Lemma process_record_split b lines s s' n :
  process_record (b, lines) s = Ok tt s' →
  last (console s') = Some (OkSplitInto n) →
  ∃ f, find_image (files s) b image_exts = Some f ∧
       split_body b f lines (said (InfoProcessing b) s) = Ok tt s'.
Proof.
  intros Hrun Hlast.
  destruct (process_record_cases b lines s)
    as [[_ H] | (f & Hf & [(s2 & Hb & H) | (e & s1 & _ & H)])];
    rewrite H in Hrun; injection Hrun as <-.
  - cbn in Hlast. rewrite last_snoc in Hlast. discriminate.
  - exists f. split; assumption.
  - cbn in Hlast. rewrite last_snoc in Hlast. discriminate.
Qed.

Lemma split_all_total records : ∀ s, ∃ s', split_all records s = Ok tt s'.
Proof.
  induction records as [|r rest IH]; intros s; cbn [split_all].
  - exists s. reflexivity.
  - destruct (process_record_total r s) as [s1 H1].
    rewrite (bind_Ok _ _ _ _ _ H1). apply IH.
Qed.

(** *** The scan *)

Lemma omap_cons {A B} (f : A → option B) (x : A) (l : list A) :
  omap f (x :: l) = match f x with Some y => y :: omap f l | None => omap f l end.
Proof. reflexivity. Qed.

Lemma multiline_record_text name content :
  multiline_record (name, TextFile content) =
  if decide (1 < List.length (stripped_lines content))%nat
  then Some (base_name_of name, stripped_lines content) else None.
Proof. reflexivity. Qed.

Lemma scan_Ok entries : ∀ acc total s,
  Forall (λ e, is_text e.2) entries →
  scan entries acc total s =
  Ok (acc ++ omap multiline_record entries, (total + List.length entries)%nat)
     (State (files s) (backup s) (total_split s)
            (console s ++ found (omap multiline_record entries))).
Proof.
  induction entries as [|[name n] rest IH]; intros acc total s Hall.
  - cbn. rewrite !app_nil_r, Nat.add_0_r. destruct s; reflexivity.
  - inversion Hall as [|? ? Hn Hrest]; subst. cbn in Hn.
    destruct n as [content| |]; try contradiction.
    cbn [scan read_annotation]. unfold bind at 1. unfold ret at 1.
    rewrite omap_cons, multiline_record_text. unfold MAX_LINES.
    cbn [List.length]. rewrite <- Nat.add_succ_comm.
    destruct (decide (1 < List.length (stripped_lines content))%nat) as [Hm|Hm].
    + apply Nat.ltb_lt in Hm. rewrite Hm. unfold bind, say.
      rewrite IH by exact Hrest. cbn. rewrite <- !app_assoc. reflexivity.
    + apply Nat.ltb_nlt in Hm. rewrite Hm. rewrite IH by exact Hrest.
      reflexivity.
Qed.

Lemma scan_Raise entries : ∀ acc total s,
  ¬ Forall (λ e, is_text e.2) entries →
  ∃ s', scan entries acc total s = Raise UnicodeDecodeError s' ∧
        files s' = files s ∧ backup s' = backup s.
Proof.
  induction entries as [|[name n] rest IH]; intros acc total s Hnot.
  - exfalso. apply Hnot. constructor.
  - cbn [scan]. destruct n as [content| |];
      try (exists s; repeat split; reflexivity).
    assert (Hrest : ¬ Forall (λ e, is_text e.2) rest).
    { intros Hall. apply Hnot. constructor; [exact I | exact Hall]. }
    cbn [read_annotation]. unfold bind at 1. unfold ret at 1.
    destruct (MAX_LINES <? _)%nat.
    + unfold bind, say.
      destruct (IH (acc ++ [(base_name_of name, stripped_lines content)]) (S total)
                  (said (InfoFoundMultiline (base_name_of name)
                           (List.length (stripped_lines content))) s) Hrest)
        as (s' & -> & Hf & Hb).
      exists s'. repeat split; assumption.
    + apply IH. exact Hrest.
Qed.

End ScriptFacts.

Section MainFacts.
Context {PIL : Imaging}.

(** What a record that went through has done. *)
Lemma process_record_effect b lines s s' n :
  process_record (b, lines) s = Ok tt s' →
  last (console s') = Some (OkSplitInto n) →
  ∃ f img n_gt bk,
    find_image (files s) b image_exts = Some f ∧
    files s !! f = Some (ImageFile img) ∧
    files s !! (b +:+ ".gt.txt") = Some n_gt ∧
    backup s = BackupDir bk ∧
    n = List.length lines ∧ lines ≠ [] ∧
    let W := (size img).1 in
    let H := (size img).2 in
    total_split s' = (total_split s + List.length (filter (λ l, l ≠ []) lines))%nat ∧
    console s' = console s ++ [InfoProcessing b; InfoImage W H n]
                   ++ created b 1 lines ++ [OkSplitInto n] ∧
    (∀ j text, lines !! j = Some text → text ≠ [] →
       ∃ c, crop img (crop_box W H (line_height H n) n (S j)) = Some c ∧
            save_png c = true ∧
            files s' !! png_name b (S j) = Some (ImageFile c) ∧
            files s' !! gt_name b (S j) = Some (TextFile (text ++ [LF]))) ∧
    (∀ name, name ≠ f → name ≠ b +:+ ".gt.txt" →
       (∀ j, (j < n)%nat → name ≠ png_name b (S j) ∧ name ≠ gt_name b (S j)) →
       files s' !! name = files s !! name) ∧
    files s' !! f = None ∧ files s' !! (b +:+ ".gt.txt") = None ∧
    backup s' = BackupDir (<[b +:+ ".gt.txt" := n_gt]> (<[f := ImageFile img]> bk)).
Proof.
  intros Hrun Hlast.
  destruct (process_record_split _ _ _ _ _ Hrun Hlast) as (f & Hfind & Hbody).
  destruct (find_image_dotted _ _ _ Hfind) as [t Hf].
  apply split_body_Ok in Hbody
    as (img & s1 & n_f & n_gt & bk & Himg & Hne & Hloop & Hf1 & Hgt1 & Hfg & Hbk & ->).
  cbn [said console] in Hlast. rewrite last_snoc in Hlast. injection Hlast as <-.
  apply split_lines_Ok in Hloop as (Hb1 & Ht1 & Hc1 & Hframe & Hout).
  cbn [said files backup total_split console] in *.
  assert (Hkeep : ∀ s0, (∀ j, (j < List.length lines)%nat →
            b +:+ String "." s0 ≠ png_name b (1 + j) ∧
            b +:+ String "." s0 ≠ gt_name b (1 + j))).
  { intros s0 j _. split; apply not_eq_sym, new_base_ne_dotted. }
  rewrite Hf, (Hframe _ (Hkeep t)), <- Hf, Himg in Hf1. injection Hf1 as <-.
  change (b +:+ ".gt.txt") with (b +:+ String "." "gt.txt") in Hgt1.
  rewrite (Hframe _ (Hkeep "gt.txt")) in Hgt1.
  exists f, img, n_gt, bk.
  split; [exact Hfind|]. split; [exact Himg|]. split; [exact Hgt1|].
  split; [congruence|]. split; [reflexivity|]. split; [exact Hne|].
  cbv zeta. split; [exact Ht1|]. split.
  { rewrite Hc1. rewrite <- !app_assoc. reflexivity. }
  split.
  { intros j text Hj Htext. destruct (Hout j text Hj Htext) as (c & Hcrop & Hsave & Hp & Hg).
    exists c. split; [exact Hcrop|]. split; [exact Hsave|].
    rewrite !lookup_delete_ne.
    - split; [exact Hp | exact Hg].
    - rewrite Hf. apply not_eq_sym, new_base_ne_dotted.
    - apply not_eq_sym. exact (new_base_ne_dotted b ".gt.txt" "gt.txt" (S j)).
    - rewrite Hf. apply not_eq_sym, new_base_ne_dotted.
    - apply not_eq_sym. exact (new_base_ne_dotted b ".png" "gt.txt" (S j)). }
  split.
  { intros name Hnf Hng Hnames. rewrite !lookup_delete_ne by congruence.
    apply Hframe. exact Hnames. }
  split.
  { rewrite lookup_delete_ne by congruence. apply lookup_delete_eq. }
  split; [apply lookup_delete_eq|]. reflexivity.
Qed.

(** *** The whole run *)

Lemma main_body_unreadable s :
  ¬ readable (files s) →
  ∃ s', main_body s = Raise UnicodeDecodeError s' ∧
        files s' = files s ∧ backup s' = backup s.
Proof.
  intros Hnot. unfold main_body, bind, say, listing. cbv beta iota.
  destruct (scan_Raise (glob_gt_txt (files s)) [] 0
              (said (Note "Analyzing ground truth files...") s) Hnot)
    as (s' & Hs & Hf & Hb).
  cbn [said files] in *. rewrite Hs. exists s'. repeat split; assumption.
Qed.

Lemma main_body_scanned s :
  readable (files s) →
  main_body s =
  match records_of (files s) with
  | [] => say (OkAllSingleLine (List.length (glob_gt_txt (files s)))) (scanned s)
  | _ =>
      match backup s with
      | BackupNotDir =>
          Raise FileExistsError
            (said (Note "Splitting multi-line images...")
               (said (MsgFound (List.length (records_of (files s)))
                        (List.length (glob_gt_txt (files s)))) (scanned s)))
      | b =>
          let bk := match b with BackupDir bk => bk | _ => ∅ end in
          match split_all (records_of (files s)) (ready bk s) with
          | Ok _ s1 =>
              Ok tt (State (files s1) (backup s1) (total_split s1)
                       (console s1 ++
                        summary (List.length (records_of (files s)))
                          (List.length (glob_gt_txt (files s1)))))
          | Raise e s1 => Raise e s1
          end
      end
  end.
Proof.
  intros Hall. unfold main_body, bind, say, listing. cbv beta iota.
  cbn [said files]. rewrite (scan_Ok _ [] 0%nat _ Hall). cbn [app Nat.add].
  fold (records_of (files s)). unfold scanned.
  destruct (records_of (files s)) as [|r rest] eqn:Hrec.
  - cbn. rewrite <- app_assoc. reflexivity.
  - unfold mkdir_backup, ready, scanned, said, with_backup. cbn [backup files total_split console].
    rewrite Hrec.
    destruct (backup s) as [|bk|] eqn:Hb; cbn [backup files total_split console].
    + rewrite <- !app_assoc. cbn [app found map].
      destruct (split_all _ _) as [[] s1|e s1]; [|reflexivity].
      unfold summary. cbn. rewrite <- !app_assoc. reflexivity.
    + rewrite <- !app_assoc. cbn [app found map].
      destruct (split_all _ _) as [[] s1|e s1]; [|reflexivity].
      unfold summary. cbn. rewrite <- !app_assoc. reflexivity.
    + rewrite <- !app_assoc. reflexivity.
Qed.

End MainFacts.

Lemma map_const_replicate {A B} (f : A → B) (l : list A) (y : B) :
  (∀ x, In x l → f x = y) → map f l = replicate (List.length l) y.
Proof.
  induction l as [|a l IH]; intros Hall; [reflexivity|].
  cbn. rewrite (Hall a) by (left; reflexivity).
  rewrite IH by (intros x Hx; apply Hall; right; exact Hx). reflexivity.
Qed.

(** Before its first occurrence of [.gt] a string is left as it is. *)
Lemma remove_gt_first (p q : string) :
  (¬ ∃ p1 p2, p = p1 +:+ ".gt" +:+ p2) →
  remove_gt (p +:+ ".gt" +:+ q) = p +:+ remove_gt q.
Proof.
  induction p as [|c p IH]; intros Hno.
  - rewrite !app_nil_s. apply remove_gt_here.
  - rewrite !app_cons_s. rewrite remove_gt_skip.
    + f_equal. apply IH. intros (p1 & p2 & Hp). apply Hno.
      exists (String c p1), p2. rewrite Hp. reflexivity.
    + intros r Hr. destruct p as [|c1 [|c2 p']];
        rewrite ?app_cons_s, ?app_nil_s in Hr; try discriminate.
      injection Hr as -> -> -> _. apply Hno. exists "", p'. reflexivity.
Qed.

Lemma map_filter_comm {A B} (f : A → B) (P : B → Prop)
    `{∀ y, Decision (P y)} (l : list A) :
  map f (filter (λ x, P (f x)) l) = filter P (map f l).
Proof.
  induction l as [|a l IH]; [reflexivity|]. cbn [map].
  destruct (decide (P (f a))) as [Hp|Hp].
  - rewrite !filter_cons_True by exact Hp. cbn [map]. rewrite IH. reflexivity.
  - rewrite !filter_cons_False by exact Hp. exact IH.
Qed.

Lemma omap_nil_all {A B} (f : A → option B) (l : list A) :
  (∀ x, x ∈ l → f x = None) → omap f l = [].
Proof.
  induction l as [|a l IH]; intros Hall; [reflexivity|].
  rewrite omap_cons, (Hall a) by (left; reflexivity).
  apply IH. intros x Hx. apply Hall. right. exact Hx.
Qed.

(** Up to 999 the field is exactly three digits wide. *)
Lemma fmt_03d_width (i : nat) : (i < 1000)%nat → String.length (fmt_03d i) = 3%nat.
Proof.
  intros Hi.
  assert (Hall : forallb (λ k, Nat.eqb (String.length (fmt_03d k)) 3) (seq 0 1000) = true)
    by (vm_compute; reflexivity).
  rewrite forallb_forall in Hall.
  apply Nat.eqb_eq, Hall, in_seq. lia.
Qed.

Section RunFacts.
Context {PIL : Imaging}.

Lemma find_image_first fs b pre ext post :
  is_Some (fs !! (b +:+ ext)) →
  Forall (λ e, fs !! (b +:+ e) = None) pre →
  find_image fs b (pre ++ ext :: post) = Some (b +:+ ext).
Proof.
  intros [n Hn] Hpre. induction Hpre as [|e pre He _ IH]; cbn [app find_image].
  - rewrite Hn. reflexivity.
  - rewrite He. exact IH.
Qed.


(** A scan that finishes has kept the records of the entries, in order. *)
Lemma scan_Ok_inv entries acc total s records total' s' :
  scan entries acc total s = Ok (records, total') s' →
  Forall (λ e, is_text e.2) entries ∧
  records = acc ++ omap multiline_record entries ∧
  total' = (total + List.length entries)%nat ∧
  files s' = files s ∧ backup s' = backup s.
Proof.
  intros Hscan.
  destruct (decide (Forall (λ e : string * node, is_text e.2) entries)) as [Hall|Hnot].
  - rewrite (scan_Ok _ _ _ _ Hall) in Hscan. injection Hscan as <- <- <-.
    repeat split. exact Hall.
  - destruct (scan_Raise _ acc total s Hnot) as (s1 & H1 & _). congruence.
Qed.

(** The records the scanner keeps have at least two lines, none empty. *)
Lemma multiline_record_lines (entries : list (string * node)) b lines :
  (b, lines) ∈ omap multiline_record entries →
  (2 ≤ List.length lines)%nat ∧ Forall (λ line, line ≠ []) lines ∧
  ∃ name content, (name, TextFile content) ∈ entries ∧
    b = base_name_of name ∧ lines = stripped_lines content.
Proof.
  intros Hin. apply list_elem_of_omap in Hin as ([name n] & Hin & Hrec).
  destruct n as [content| |]; try discriminate.
  rewrite multiline_record_text in Hrec.
  destruct (decide (1 < List.length (stripped_lines content))%nat) as [Hm|];
    [|discriminate].
  injection Hrec as <- <-. split; [exact Hm|]. split.
  - eapply Forall_impl; [apply stripped_lines_truthy|].
    intros line Ht. apply truthy_nonempty. exact Ht.
  - exists name, content. repeat split. exact Hin.
Qed.

(** The whole run, when no annotation has more than one line. *)
Lemma main_single_line fs b :
  readable fs → records_of fs = [] →
  main (Some (fs, b)) =
  Outcome 0 (banner ++ [Note "Analyzing ground truth files...";
                        OkAllSingleLine (List.length (glob_gt_txt fs))])
    (Some (fs, b)).
Proof.
  intros Hread Hnone. unfold main.
  rewrite main_body_scanned by exact Hread. cbn [files backup].
  rewrite Hnone. unfold say, said, scanned. cbn. rewrite Hnone. reflexivity.
Qed.

Lemma exit_status_cases (root : option disk) :
  exit_status (main root) ≠ 0%Z ↔
  root = None ∨
  ∃ fs b, root = Some (fs, b) ∧
    (¬ readable fs ∨ (records_of fs ≠ [] ∧ b = BackupNotDir)).
Proof.
  destruct root as [[fs b]|]; cbn [main].
  2:{ split; [intros _; left; reflexivity | intros _; cbn; discriminate]. }
  destruct (decide (Forall (λ e : string * node, is_text e.2) (glob_gt_txt fs)))
    as [Hread|Hnot].
  - rewrite main_body_scanned by exact Hread. cbn [files backup].
    destruct (records_of fs) as [|r rest] eqn:Hrec.
    + cbn. split; [congruence|].
      intros [Hx | (fs' & b' & Heq & Hor)]; [discriminate|].
      injection Heq as <- <-.
      destruct Hor as [Hn | [Hn _]]; [exfalso; apply Hn; exact Hread | congruence].
    + destruct b as [|bk|].
      * destruct (split_all_total (r :: rest) (ready ∅ (State fs NoBackup 0 banner)))
          as [s1 H1]. cbv zeta. rewrite H1. cbn. split; [congruence|].
        intros [Hx | (fs' & b' & Heq & Hor)]; [discriminate|].
        injection Heq as <- <-.
        destruct Hor as [Hn | [_ Hn]]; [exfalso; apply Hn; exact Hread | discriminate].
      * destruct (split_all_total (r :: rest) (ready bk (State fs (BackupDir bk) 0 banner)))
          as [s1 H1]. cbv zeta. rewrite H1. cbn. split; [congruence|].
        intros [Hx | (fs' & b' & Heq & Hor)]; [discriminate|].
        injection Heq as <- <-.
        destruct Hor as [Hn | [_ Hn]]; [exfalso; apply Hn; exact Hread | discriminate].
      * cbn. split; [|intros _; discriminate]. intros _. right. exists fs, BackupNotDir.
        split; [reflexivity|]. right. split; [rewrite Hrec; discriminate | reflexivity].
  - destruct (main_body_unreadable (State fs b 0 banner) Hnot) as (s1 & -> & _).
    cbn. split; [|intros _; discriminate]. intros _. right. exists fs, b.
    split; [reflexivity|]. left. exact Hnot.
Qed.

(** With no empty line, one [Created] line is printed per line number. *)
Lemma created_all b lines : ∀ k,
  Forall (λ line, line ≠ []) lines →
  created b k lines =
  zip_with (λ i text, InfoCreated (new_base b i) (List.length text))
    (seq k (List.length lines)) lines.
Proof.
  induction lines as [|t rest IH]; intros k Hne; [reflexivity|].
  inversion Hne as [|? ? Ht Hrest]; subst.
  cbn [created List.length seq zip_with]. destruct t as [|a t]; [congruence|].
  cbn [truthy app]. rewrite IH by exact Hrest. reflexivity.
Qed.

Lemma filter_all {A} (P : A → Prop) `{∀ x, Decision (P x)} (l : list A) :
  Forall P l → filter P l = l.
Proof.
  induction 1 as [|x l Hx _ IH]; [reflexivity|].
  rewrite filter_cons_True by exact Hx. rewrite IH. reflexivity.
Qed.

(** The names written for one record are pairwise distinct. *)
Lemma output_names_NoDup b N :
  NoDup (map (png_name b) (seq 1 N) ++ map (gt_name b) (seq 1 N)).
Proof.
  apply NoDup_app. split; [|split].
  - apply NoDup_fmap_2_strong; [|apply NoDup_seq].
    intros i j _ _ Hij. apply (png_name_inj b). exact Hij.
  - intros name Hp Hg.
    apply list_elem_of_fmap in Hp as (i & -> & _).
    apply list_elem_of_fmap in Hg as (j & Hij & _).
    exact (png_name_ne_gt_name b b i j Hij).
  - apply NoDup_fmap_2_strong; [|apply NoDup_seq].
    intros i j _ _ Hij. apply (gt_name_inj b). exact Hij.
Qed.

(** What [glob("*.gt.txt")] yields: the entries whose name ends in
    [.gt.txt], each once. *)
Lemma glob_gt_txt_elem (fs : gmap string node) name n :
  (name, n) ∈ glob_gt_txt fs ↔
  fs !! name = Some n ∧ ∃ x, name = x +:+ ".gt.txt".
Proof.
  unfold glob_gt_txt. rewrite list_elem_of_filter, elem_of_map_to_list.
  cbn [fst]. unfold is_gt_txt. rewrite ends_with_iff. tauto.
Qed.

(** A record whose first band has no pixel row fails at its first line,
    with a library that does not save empty images. *)
Lemma first_band_refused b f img (lines : list str) s W H :
  crop_fits → refuses_empty →
  find_image (files s) b image_exts = Some f →
  files s !! f = Some (ImageFile img) → size img = (W, H) →
  (0 ≤ W)%Z → (0 ≤ H < Z.of_nat (List.length lines))%Z →
  (2 ≤ List.length lines)%nat →
  Forall (λ line, line ≠ []) lines →
  ∃ s1, process_record (b, lines) s = Ok tt s1 ∧
    console s1 = console s ++ [InfoProcessing b; InfoImage W H (List.length lines);
                               ErrFailed b ImagingError] ∧
    total_split s1 = total_split s ∧ backup s1 = backup s ∧
    (files s1 = files s ∨ files s1 = files (truncated (png_name b 1) s)).
Proof.
  intros Hfits Hempty Hfind Himg Hsize HW HH HN Hne.
  assert (Hbox : crop_box W H (line_height H (List.length lines)) (List.length lines) 1
                 = (0, 0, W, 0)%Z).
  { unfold crop_box, y_start, y_end, line_height.
    rewrite Z.div_small by lia.
    replace (1 <? List.length lines)%nat with true by (symmetry; apply Nat.ltb_lt; lia).
    rewrite !Z.mul_0_r. reflexivity. }
  destruct lines as [|t rest]; [cbn in HN; lia|].
  inversion Hne as [|? ? Ht _]; subst.
  unfold process_record, bind, listing. rewrite Hfind.
  unfold say, try_except, split_body, bind, image_open.
  cbn [said files]. rewrite Himg, Hsize.
  remember (List.length (t :: rest)) as N eqn:HeqN.
  destruct N as [|n]; [discriminate|].
  cbn [split_lines]. unfold bind. unfold split_line at 1.
  destruct t as [|a t]; [congruence|]. cbn [truthy].
  rewrite Hbox.
  destruct (crop img (0, 0, W, 0)%Z) as [c|] eqn:Hcrop.
  - assert (Hc : size c = (W - 0, 0 - 0)%Z).
    { apply (Hfits img c 0 0 W 0)%Z; rewrite ?Hsize; cbn [fst snd]; try lia. exact Hcrop. }
    assert (Hs : save_png c = false).
    { apply Hempty. right. rewrite Hc. reflexivity. }
    unfold bind, image_save. rewrite Hs.
    eexists. split; [reflexivity|].
    pose proof (truncated_rest (png_name b 1)
                  (said (InfoImage W H (S n)) (said (InfoProcessing b) s)))
      as (Hb' & Ht' & Hc').
    cbn [said console total_split backup files]. rewrite Hb', Ht', Hc'.
    cbn [said console total_split backup]. rewrite <- !app_assoc.
    split; [reflexivity|]. split; [reflexivity|]. split; [reflexivity|].
    right. unfold truncated. cbn [said files].
    destruct (files s !! png_name b 1); reflexivity.
  - unfold raise. eexists. split; [reflexivity|].
    cbn [said console total_split backup files]. rewrite <- !app_assoc.
    repeat split. left. reflexivity.
Qed.
End RunFacts.

(** * Properties of the specification *)

Section Properties.
Context {PIL : Imaging}.
Local Open Scope Z_scope.

(** C1. A record with N >= 2 non-empty lines over an image of height
    H >= 1 and width W is cut with line_height = H div N into the N boxes
    (0, (i-1)*line_height, W, i*line_height) for i < N and
    (0, (N-1)*line_height, W, H) for i = N. Each band starts where the
    previous one ends, the first starts at 0, the last ends at H, no pixel
    row lies in two bands, the rows of all bands are exactly [0, H), the
    bands before the last are line_height high and the last is
    H - (N-1)*line_height high. *)
Theorem C1_band_partition (W H : Z) (lines : list str) :
  (2 ≤ List.length lines)%nat →
  Forall (λ line, line ≠ []) lines →
  1 ≤ H →
  let N := List.length lines in
  let lh := line_height H N in
  let band := crop_box W H lh N in
  lh = H `div` Z.of_nat N ∧
  bands W H lines = map band (seq 1 N) ∧
  (∀ i, (1 ≤ i < N)%nat →
     band i = (0, (Z.of_nat i - 1) * lh, W, Z.of_nat i * lh)) ∧
  band N = (0, (Z.of_nat N - 1) * lh, W, H) ∧
  (∀ i, (1 ≤ i < N)%nat → upper (band (S i)) = lower (band i)) ∧
  upper (band 1%nat) = 0 ∧
  lower (band N) = H ∧
  (∀ i j y, (1 ≤ i ≤ N)%nat → (1 ≤ j ≤ N)%nat →
     upper (band i) ≤ y < lower (band i) →
     upper (band j) ≤ y < lower (band j) → i = j) ∧
  (∀ y, 0 ≤ y < H ↔
        ∃ i, (1 ≤ i ≤ N)%nat ∧ upper (band i) ≤ y < lower (band i)) ∧
  (∀ i, (1 ≤ i < N)%nat → box_height (band i) = lh) ∧
  box_height (band N) = H - (Z.of_nat N - 1) * lh.
Proof.
  intros HN Hne HH N lh band.
  assert (HN1 : (1 ≤ N)%nat) by (unfold N; lia).
  assert (HH0 : 0 ≤ H) by lia.
  assert (Hinner : ∀ i, (1 ≤ i < N)%nat →
            band i = (0, (Z.of_nat i - 1) * lh, W, Z.of_nat i * lh)).
  { intros i Hi. unfold band, crop_box, y_start, y_end.
    replace (i <? N)%nat with true by (symmetry; apply Nat.ltb_lt; lia).
    reflexivity. }
  assert (Hlast : band N = (0, (Z.of_nat N - 1) * lh, W, H)).
  { unfold band, crop_box, y_start, y_end. rewrite Nat.ltb_irrefl. reflexivity. }
  split; [reflexivity|].
  split; [apply bands_from_all; exact Hne|].
  split; [exact Hinner|]. split; [exact Hlast|].
  split; [intros i Hi; apply band_contiguous; lia|].
  split; [reflexivity|].
  split; [apply band_lower_last; lia|].
  split; [intros i j y Hi Hj; apply band_unique; assumption|].
  split.
  { intros y. split; [apply band_cover; assumption|].
    intros (i & Hi & Hy).
    pose proof (band_ordered W H N HN1 HH0 i Hi) as Hord.
    fold lh in Hord. fold band in Hord. lia. }
  split.
  - intros i Hi. rewrite (Hinner i Hi). unfold box_height, upper, lower. lia.
  - rewrite Hlast. reflexivity.
Qed.


(** C9. The base name derived from [x.gt.txt] is [x] with every [.gt]
    removed ([str.replace] scans from the left; before the first
    occurrence nothing changes). It is [x] itself exactly when [x]
    contains no [.gt]; for [a.gtx.gt.txt] it is [ax], not [a.gtx]. The
    record works under the derived name: when no image of that name with
    a recognized extension exists it reports [Image file not found] for
    the derived name, and when it goes through, the image it used and the
    annotation it moved are the entries under the derived name. *)
Theorem C9_base_name_drops_every_gt (x : string) :
  let b := remove_gt x in
  base_name_of (x +:+ ".gt.txt") = b ∧
  (∀ p q, (¬ ∃ p1 p2, p = p1 +:+ ".gt" +:+ p2) →
     remove_gt (p +:+ ".gt" +:+ q) = p +:+ remove_gt q) ∧
  (base_name_of (x +:+ ".gt.txt") = x ↔ ¬ ∃ p q, x = p +:+ ".gt" +:+ q) ∧
  base_name_of "a.gtx.gt.txt" = "ax" ∧
  "ax" ≠ "a.gtx" ∧
  (∀ lines s,
     Forall (λ e, files s !! (b +:+ e) = None) image_exts →
     process_record (base_name_of (x +:+ ".gt.txt"), lines) s
     = Ok tt (said (ErrImageNotFound b) s)) ∧
  (∀ lines s s' n,
     process_record (base_name_of (x +:+ ".gt.txt"), lines) s = Ok tt s' →
     last (console s') = Some (OkSplitInto n) →
     ∃ ext n_gt bk bk',
       ext ∈ image_exts ∧ is_Some (files s !! (b +:+ ext)) ∧
       files s !! (b +:+ ".gt.txt") = Some n_gt ∧
       backup s = BackupDir bk ∧ backup s' = BackupDir bk' ∧
       bk' !! (b +:+ ".gt.txt") = Some n_gt ∧
       files s' !! (b +:+ ".gt.txt") = None).
Proof.
  intros b.
  split; [apply base_name_of_gt_txt|].
  split; [intros p q Hp; apply remove_gt_first; exact Hp|].
  split; [rewrite base_name_of_gt_txt; apply remove_gt_id_iff|].
  split; [reflexivity|]. split; [discriminate|].
  rewrite base_name_of_gt_txt. fold b. split.
  - intros lines s Hnone.
    destruct (process_record_cases b lines s) as [[_ H] | (f & Hf & _)];
      [exact H|].
    apply find_image_None in Hnone. congruence.
  - intros lines s s' n Hrun Hmark.
    destruct (process_record_effect _ _ _ _ _ Hrun Hmark)
      as (f & img & n_gt & bk & Hfind & Himg & Hgt & Hbk & _ & _ & Heff).
    cbv zeta in Heff. destruct Heff as (_ & _ & _ & _ & _ & Hgone & Hbk').
    apply find_image_Some in Hfind as (pre & ext & post & Hexts & -> & Hex & _).
    exists ext, n_gt, bk,
      (<[b +:+ ".gt.txt" := n_gt]> (<[b +:+ ext := ImageFile img]> bk)).
    split; [rewrite Hexts; set_solver|].
    split; [exact Hex|]. split; [exact Hgt|]. split; [exact Hbk|].
    split; [exact Hbk'|]. split; [apply lookup_insert_eq | exact Hgone].
Qed.

(** C5. The paired image of a record is looked up under the extensions
    .png, .jpg, .jpeg, .tif, .tiff, .PNG, .JPG, .JPEG in that order, and
    the first candidate that exists is taken. When no candidate exists the
    record writes and moves nothing, [Image file not found] is reported
    for its base name, and the loop goes on with the next record. *)
Theorem C5_image_resolution (b : string) (lines : list str) (s : state) :
  image_exts = [".png"; ".jpg"; ".jpeg"; ".tif"; ".tiff"; ".PNG"; ".JPG"; ".JPEG"] ∧
  (∀ f, find_image (files s) b image_exts = Some f ↔
        ∃ pre ext post, image_exts = pre ++ ext :: post ∧ f = b +:+ ext ∧
          is_Some (files s !! (b +:+ ext)) ∧
          Forall (λ e, files s !! (b +:+ e) = None) pre) ∧
  (∀ f, find_image (files s) b image_exts = Some f →
        process_record (b, lines) s =
        try_except (split_body b f lines) (λ e, say (ErrFailed b e))
          (said (InfoProcessing b) s)) ∧
  (Forall (λ e, files s !! (b +:+ e) = None) image_exts →
     let s' := said (ErrImageNotFound b) s in
     process_record (b, lines) s = Ok tt s' ∧
     files s' = files s ∧ backup s' = backup s ∧
     total_split s' = total_split s ∧
     console s' = console s ++ [ErrImageNotFound b] ∧
     ∀ rest, split_all ((b, lines) :: rest) s = split_all rest s').
Proof.
  split; [reflexivity|]. split; [|split].
  - intros f. split.
    + intros Hf. apply find_image_Some in Hf as (pre & ext & post & He & -> & Hex & Hpre).
      exists pre, ext, post. repeat split; assumption.
    + intros (pre & ext & post & -> & -> & Hex & Hpre).
      apply find_image_first; assumption.
  - intros f Hf. unfold process_record, bind, listing. rewrite Hf. reflexivity.
  - intros Hnone s'. apply find_image_None in Hnone.
    assert (Hrun : process_record (b, lines) s = Ok tt s').
    { unfold process_record, bind, listing. rewrite Hnone. reflexivity. }
    split; [exact Hrun|]. repeat split.
    intros rest. cbn [split_all]. rewrite (bind_Ok _ _ _ _ _ Hrun). reflexivity.
Qed.

(** C6. Line i of a record (counted from 1, not empty) is written as the
    image [{base_name}_line{i:03d}.png], holding the crop of the paired
    image to band i, and as the annotation [{base_name}_line{i:03d}.gt.txt],
    holding the line's text followed by one newline and nothing else; both
    go into the ground-truth directory and nothing else is touched by the
    step. The number is printed in decimal, padded with zeros to three
    digits. Once the record has gone through, every line's pair is
    there. *)
Theorem C6_output_pair (b : string) (lines : list str) :
  (∀ i, png_name b i = b +:+ "_line" +:+ fmt_03d i +:+ ".png" ∧
        gt_name b i = b +:+ "_line" +:+ fmt_03d i +:+ ".gt.txt" ∧
        digits_value (fmt_03d i) = i ∧
        (3 ≤ String.length (fmt_03d i))%nat ∧
        ((i < 1000)%nat → String.length (fmt_03d i) = 3%nat)) ∧
  (∀ img W H lh N i text s s',
     text ≠ [] →
     split_line b img W H lh N i text s = Ok tt s' →
     ∃ c, crop img (crop_box W H lh N i) = Some c ∧
          files s' = <[gt_name b i := TextFile (text ++ [LF])]>
                       (<[png_name b i := ImageFile c]> (files s)) ∧
          backup s' = backup s) ∧
  (∀ s s' n,
     process_record (b, lines) s = Ok tt s' →
     last (console s') = Some (OkSplitInto n) →
     ∃ f img, find_image (files s) b image_exts = Some f ∧
       files s !! f = Some (ImageFile img) ∧
       ∀ j text, lines !! j = Some text → text ≠ [] →
         ∃ c, crop img (crop_box (size img).1 (size img).2
                          (line_height (size img).2 (List.length lines))
                          (List.length lines) (S j)) = Some c ∧
              files s' !! (b +:+ "_line" +:+ fmt_03d (S j) +:+ ".png")
                = Some (ImageFile c) ∧
              files s' !! (b +:+ "_line" +:+ fmt_03d (S j) +:+ ".gt.txt")
                = Some (TextFile (text ++ [LF]))).
Proof.
  assert (Hnames : ∀ i, png_name b i = b +:+ "_line" +:+ fmt_03d i +:+ ".png" ∧
                        gt_name b i = b +:+ "_line" +:+ fmt_03d i +:+ ".gt.txt").
  { intros i. unfold png_name, gt_name, new_base. rewrite !app_assoc_s.
    split; reflexivity. }
  split; [|split].
  - intros i. destruct (Hnames i) as [Hp Hg].
    split; [exact Hp|]. split; [exact Hg|].
    split; [apply digits_value_fmt_03d|].
    split; [rewrite fmt_03d_length; lia|]. apply fmt_03d_width.
  - intros img W H lh N i text s s' Hne Hrun.
    apply split_line_Ok in Hrun as [[-> _] | (_ & c & Hcrop & _ & ->)];
      [congruence|].
    exists c. repeat split. exact Hcrop.
  - intros s s' n Hrun Hmark.
    destruct (process_record_effect _ _ _ _ _ Hrun Hmark)
      as (f & img & n_gt & bk & Hfind & Himg & _ & _ & -> & _ & Heff).
    cbv zeta in Heff. destruct Heff as (_ & _ & Hout & _).
    exists f, img. split; [exact Hfind|]. split; [exact Himg|].
    intros j text Hj Hne. destruct (Hout j text Hj Hne) as (c & Hcrop & _ & Hp & Hg).
    destruct (Hnames (S j)) as [<- <-].
    exists c. repeat split; assumption.
Qed.

(** C8. A record kept by the scanner has no empty line, so the test
    [if not line_text] of the splitting loop is false for each of its
    lines, no band is left out, and when the record goes through it has
    written exactly one (image, annotation) pair per line: N [Created]
    lines are printed, [total_split] grows by N, the N image names and N
    annotation names are pairwise distinct and present, and every other
    file found afterwards was there before, unchanged. *)
Theorem C8_no_line_skipped (entries : list (string * node))
    (s0 s1 : state) (records : list (string * list str)) (total : nat)
    (b : string) (lines : list str) :
  scan entries [] 0 s0 = Ok (records, total) s1 →
  (b, lines) ∈ records →
  let N := List.length lines in
  Forall (λ line, truthy line = true) lines ∧
  (∀ W H, List.length (bands W H lines) = N) ∧
  NoDup (map (png_name b) (seq 1 N) ++ map (gt_name b) (seq 1 N)) ∧
  (∀ s s' n,
     process_record (b, lines) s = Ok tt s' →
     last (console s') = Some (OkSplitInto n) →
     n = N ∧
     total_split s' = (total_split s + N)%nat ∧
     (∃ W H, console s' =
        console s ++ [InfoProcessing b; InfoImage W H N]
          ++ zip_with (λ i text, InfoCreated (new_base b i) (List.length text))
               (seq 1 N) lines
          ++ [OkSplitInto N]) ∧
     (∀ i, (1 ≤ i ≤ N)%nat →
        (∃ c, files s' !! png_name b i = Some (ImageFile c)) ∧
        (∃ text, lines !! (i - 1)%nat = Some text ∧
                 files s' !! gt_name b i = Some (TextFile (text ++ [LF])))) ∧
     (∀ name, name ∉ map (png_name b) (seq 1 N) ++ map (gt_name b) (seq 1 N) →
        is_Some (files s' !! name) → files s' !! name = files s !! name)).
Proof.
  intros Hscan Hin N.
  apply scan_Ok_inv in Hscan as (_ & -> & _).
  apply multiline_record_lines in Hin as (_ & Hne & _).
  split.
  { eapply Forall_impl; [exact Hne|]. intros line Hl. apply truthy_nonempty. exact Hl. }
  split.
  { intros W H. unfold bands. rewrite bands_from_all by exact Hne.
    rewrite length_map, length_seq. reflexivity. }
  split; [apply output_names_NoDup|].
  intros s s' n Hrun Hmark.
  destruct (process_record_effect _ _ _ _ _ Hrun Hmark)
    as (f & img & n_gt & bk & _ & _ & _ & _ & -> & _ & Heff).
  cbv zeta in Heff. destruct Heff as (Ht & Hc & Hout & Hframe & Hf & Hg & _).
  rewrite (filter_all _ _ Hne) in Ht. rewrite (created_all _ _ _ Hne) in Hc.
  split; [reflexivity|]. split; [exact Ht|]. split; [eauto|]. split.
  - intros i Hi.
    destruct (lookup_lt_is_Some_2 lines (i - 1)%nat ltac:(fold N; lia)) as [text Htext].
    assert (Hnz : text ≠ []).
    { eapply Forall_lookup_1 in Hne; [exact Hne | exact Htext]. }
    destruct (Hout _ _ Htext Hnz) as (c & _ & _ & Hp & Hgt).
    replace (S (i - 1)) with i in * by lia.
    split; [exists c; exact Hp | exists text; split; assumption].
  - intros name Hname [n Hn]. apply Hframe.
    + intros ->. congruence.
    + intros ->. congruence.
    + intros j Hj. split; intros ->; apply Hname, elem_of_app;
        [left | right]; apply list_elem_of_fmap; exists (S j);
        (split; [reflexivity | apply elem_of_seq; fold N; lia]).
Qed.

(** The scanner strips every line of an annotation file and drops
    the lines that become empty. A file gives a record, made of its base
    name and its stripped lines in order, exactly when more than one line
    remains, and the records come in scan order. A file with at most one
    line gives no record and the scan leaves it alone: what the run does
    to the directory is what the splitting loop does over the records,
    and a directory without multi-line files is left as it was. *)
Lemma scanner_classification (fs : gmap string node) (s : state) :
  readable fs →
  (∀ name n, (name, n) ∈ glob_gt_txt fs ↔
             fs !! name = Some n ∧ ∃ x, name = x +:+ ".gt.txt") ∧
  (∀ content, stripped_lines content
              = filter (λ line, line ≠ []) (map strip (file_lines content))) ∧
  (∃ s', scan (glob_gt_txt fs) [] 0 s
         = Ok (omap multiline_record (glob_gt_txt fs),
               List.length (glob_gt_txt fs)) s' ∧
         files s' = files s ∧ backup s' = backup s) ∧
  (∀ name content,
     (1 < List.length (stripped_lines content))%nat →
       multiline_record (name, TextFile content)
       = Some (base_name_of name, stripped_lines content)) ∧
  (∀ name content,
     (List.length (stripped_lines content) ≤ 1)%nat →
       multiline_record (name, TextFile content) = None ∧
       ∀ acc total st, ∃ st',
         scan [(name, TextFile content)] acc total st = Ok (acc, S total) st' ∧
         files st' = files st ∧ backup st' = backup st ∧
         console st' = console st) ∧
  (∀ b, b ≠ BackupNotDir → records_of fs ≠ [] →
     ∃ s1, split_all (omap multiline_record (glob_gt_txt fs))
             (ready (match b with BackupDir bk => bk | _ => ∅ end)
                (State fs b 0 banner)) = Ok tt s1 ∧
           exit_status (main (Some (fs, b))) = 0 ∧
           disk_after (main (Some (fs, b))) = Some (files s1, backup s1)) ∧
  ((∀ name content, (name, TextFile content) ∈ glob_gt_txt fs →
      (List.length (stripped_lines content) ≤ 1)%nat) →
   ∀ bk, exit_status (main (Some (fs, bk))) = 0 ∧
         disk_after (main (Some (fs, bk))) = Some (fs, bk)).
Proof.
  intros Hread.
  split; [intros name n; apply glob_gt_txt_elem|].
  split.
  { intros content. unfold stripped_lines.
    rewrite <- (map_filter_comm strip (λ line, line ≠ [])).
    f_equal. apply list_filter_iff. intros line. apply truthy_nonempty. }
  split.
  { eexists. rewrite (scan_Ok _ [] 0%nat s Hread). cbn [app Nat.add].
    split; [reflexivity|]. split; reflexivity. }
  split.
  { intros name content Hm. rewrite multiline_record_text.
    rewrite decide_True by exact Hm. reflexivity. }
  split.
  { intros name content Hm.
    assert (Hrec : multiline_record (name, TextFile content) = None).
    { rewrite multiline_record_text. apply decide_False. lia. }
    split; [exact Hrec|]. intros acc total st. eexists.
    rewrite scan_Ok by (repeat constructor).
    rewrite omap_cons, Hrec. cbn. rewrite !app_nil_r, Nat.add_1_r.
    split; [reflexivity|]. repeat split. }
  split.
  { intros b Hb Hrec. fold (records_of fs).
    destruct (split_all_total (records_of fs)
                (ready (match b with BackupDir bk => bk | _ => ∅ end)
                   (State fs b 0 banner))) as [s1 H1].
    exists s1. split; [exact H1|]. unfold main.
    rewrite main_body_scanned by exact Hread. cbn [files backup].
    destruct (records_of fs) as [|r rest]; [congruence|].
    destruct b as [|bk|]; [| |congruence]; cbv zeta; rewrite H1;
      split; reflexivity. }
  intros Hsingle bk.
  assert (Hnone : records_of fs = []).
  { unfold records_of. apply omap_nil_all. intros [name n] Hin.
    pose proof Hread as Hr. unfold readable in Hr.
    rewrite Forall_forall in Hr. specialize (Hr _ Hin). cbn in Hr.
    destruct n as [content| |]; try contradiction.
    rewrite multiline_record_text. apply decide_False.
    specialize (Hsingle _ _ Hin). lia. }
  rewrite (main_single_line fs bk Hread Hnone). split; reflexivity.
Qed.


End Properties.

(** * Runs on concrete directories *)

Section Runs.
Import Raster Samples.

(** The scenario of the specification: three lines over a picture 90 rows
    high give the bands 0-30, 30-60 and 60-90, and the originals end up in
    [multiline_originals]. *)
Example page1_run :
  let out := main (Some page1) in
  exit_status out = 0%Z ∧
  bands 300 90 [codes "Hello"; codes "World"; codes "Test"]
    = [(0, 0, 300, 30); (0, 30, 300, 60); (0, 60, 300, 90)]%Z ∧
  entry out "page1_line002.png"
    = option_map ImageFile (raster_crop (blank 3 90) (0, 30, 3, 60)%Z) ∧
  entry out "page1_line001.gt.txt" = Some (TextFile (codes "Hello" ++ [LF])) ∧
  entry out "page1_line002.gt.txt" = Some (TextFile (codes "World" ++ [LF])) ∧
  entry out "page1_line003.gt.txt" = Some (TextFile (codes "Test" ++ [LF])) ∧
  entry out "page1.png" = None ∧ entry out "page1.gt.txt" = None ∧
  archived out "page1.png" = Some (ImageFile (blank 3 90)) ∧
  is_Some (archived out "page1.gt.txt").
Proof. vm_compute. repeat split; eauto. Qed.

(** Three lines over two pixel rows: the first band has no row, the
    library does not save it, and the record fails at its first line
    without having written or moved anything. *)
Example squeezed_run :
  let out := main (Some squeezed) in
  exit_status out = 0%Z ∧ split_count (printed out) = 0%nat ∧
  raster_crop (blank 2 2) (0, 0, 2, 0)%Z = Some (Raster 2 []) ∧
  raster_save (Raster 2 []) = false ∧
  disk_after out = Some (squeezed.1, BackupDir ∅) ∧
  printed out =
    banner ++
    [Note "Analyzing ground truth files..."; InfoFoundMultiline "s" 3;
     MsgFound 1 1; Note "Splitting multi-line images...";
     InfoProcessing "s"; InfoImage 2 2 3;
     ErrFailed "s" ImagingError;
     Note "Summary"; OkSuccessfullySplit 1; InfoMovedTo "multiline_originals";
     OkTotalSingleLine 1; Note "Next steps:"; Note "Done!"].
Proof. vm_compute. repeat split. Qed.

(** C3. After both output pairs of the record [ax] (from [a.gtx.gt.txt],
    with the image [ax.png]) have been written without exception, the
    image is moved to [multiline_originals], but the annotation the
    record came from is not: the script moves [ax.gt.txt], which does not
    exist, the move raises [FileNotFoundError], and [a.gtx.gt.txt] stays in
    the ground-truth directory. *)
Theorem C3_annotation_not_moved :
  let out := main (Some dotted) in
  exit_status out = 0%Z ∧
  is_Some (entry out "ax_line001.png") ∧
  entry out "ax_line001.gt.txt" = Some (TextFile (codes "a" ++ [LF])) ∧
  is_Some (entry out "ax_line002.png") ∧
  entry out "ax_line002.gt.txt" = Some (TextFile (codes "b" ++ [LF])) ∧
  entry out "ax.png" = None ∧
  archived out "ax.png" = Some (ImageFile (blank 2 4)) ∧
  is_Some (entry out "a.gtx.gt.txt") ∧
  archived out "a.gtx.gt.txt" = None ∧
  archived out "ax.gt.txt" = None ∧
  printed out =
    banner ++
    [Note "Analyzing ground truth files..."; InfoFoundMultiline "ax" 2;
     MsgFound 1 1; Note "Splitting multi-line images...";
     InfoProcessing "ax"; InfoImage 2 4 2;
     InfoCreated "ax_line001" 1; InfoCreated "ax_line002" 1;
     ErrFailed "ax" FileNotFoundError;
     Note "Summary"; OkSuccessfullySplit 1; InfoMovedTo "multiline_originals";
     OkTotalSingleLine 3; Note "Next steps:"; Note "Done!"].
Proof. vm_compute. repeat split; eauto. Qed.

(** The same with a file already under the name of the first image: the
    save that fails has emptied it. *)
Example squeezed_again_run :
  let out := main (Some squeezed_again) in
  exit_status out = 0%Z ∧ split_count (printed out) = 0%nat ∧
  entry out "s_line001.png" = Some (TextFile []) ∧
  entry out "s_line001.gt.txt" = None ∧
  is_Some (entry out "s.png") ∧ is_Some (entry out "s.gt.txt").
Proof. vm_compute. repeat split; eauto. Qed.

(** C2. [a.gt.txt] has one line: the scanner gives it no record, the only
    record is [a], from the two lines of [a.gt.gt.txt]. Yet once the two
    pairs of that record are written the script moves [a.gt.txt] to
    [multiline_originals], since it rebuilds the annotation's path from
    the base name; the single-line file is gone from the ground-truth
    directory, and the annotation the record came from stays. *)
Theorem C2_single_line_file_moved :
  let out := main (Some doubled) in
  stripped_lines (codes "one line
") = [codes "one line"] ∧
  multiline_record ("a.gt.txt", TextFile (codes "one line
")) = None ∧
  records_of doubled.1 = [("a", [codes "x"; codes "y"])] ∧
  exit_status out = 0%Z ∧
  entry out "a.gt.txt" = None ∧
  archived out "a.gt.txt" = Some (TextFile (codes "one line
")) ∧
  is_Some (entry out "a.gt.gt.txt") ∧
  archived out "a.gt.gt.txt" = None ∧
  archived out "a.png" = Some (ImageFile (blank 2 4)) ∧
  printed out =
    banner ++
    [Note "Analyzing ground truth files..."; InfoFoundMultiline "a" 2;
     MsgFound 1 2; Note "Splitting multi-line images...";
     InfoProcessing "a"; InfoImage 2 4 2;
     InfoCreated "a_line001" 1; InfoCreated "a_line002" 1;
     OkSplitInto 2;
     Note "Summary"; OkSuccessfullySplit 1; InfoMovedTo "multiline_originals";
     OkTotalSingleLine 3; Note "Next steps:"; Note "Done!"].
Proof. vm_compute. repeat split; eauto. Qed.

(** C7. With one multi-line annotation and no image for it, no record is
    split, yet the summary prints [Successfully split 1 multi-line
    image(s)]: the number is the count of multi-line files found, not of
    the records that went through. *)
Theorem C7_summary_counts_found_files :
  let out := main (Some orphan) in
  exit_status out = 0%Z ∧
  split_count (printed out) = 0%nat ∧
  disk_after out = Some (orphan.1, BackupDir ∅) ∧
  printed out =
    banner ++
    [Note "Analyzing ground truth files..."; InfoFoundMultiline "p" 2;
     MsgFound 1 1; Note "Splitting multi-line images...";
     ErrImageNotFound "p";
     Note "Summary"; OkSuccessfullySplit 1; InfoMovedTo "multiline_originals";
     OkTotalSingleLine 1; Note "Next steps:"; Note "Done!"].
Proof. vm_compute. repeat split; eauto. Qed.



(** The raster library has the two properties of Pillow. *)
Lemma raster_crop_fits : crop_fits.
Proof.
  intros img c x0 y0 x1 y1 Hx Hx1 Hy Hy1. cbn [crop size raster_imaging] in *.
  unfold raster_crop, raster_size in *. cbn [fst snd] in *.
  destruct ((x1 <? x0)%Z || (y1 <? y0)%Z); [discriminate|].
  intros [= <-]. cbn [raster_width rows]. f_equal.
  unfold window. rewrite length_map, length_take, length_drop. lia.
Qed.

Lemma raster_refuses_empty : refuses_empty.
Proof.
  intros img. cbn [save_png size raster_imaging]. unfold raster_save, raster_size.
  cbn [fst snd]. intros [Hw | Hh].
  - rewrite Hw. reflexivity.
  - rewrite Hh, orb_true_r. reflexivity.
Qed.

Lemma C1_band_partition_witness :
  bands 300 90 [codes "Hello"; codes "World"; codes "Test"]
  = map (crop_box 300 90 (line_height 90 3) 3) (seq 1 3).
Proof.
  refine (proj1 (proj2 (C1_band_partition 300 90
            [codes "Hello"; codes "World"; codes "Test"] _ _ _))).
  - cbn. lia.
  - repeat constructor; discriminate.
  - lia.
Defined.


Lemma C8_no_line_skipped_witness :
  Forall (λ line, truthy line = true) [codes "Hello"; codes "World"; codes "Test"].
Proof.
  refine (proj1 (C8_no_line_skipped
            [("page1.gt.txt", TextFile (codes "Hello
World
Test
"))]
            (State ∅ NoBackup 0 [])
            (State ∅ NoBackup 0 [InfoFoundMultiline "page1" 3])
            [("page1", [codes "Hello"; codes "World"; codes "Test"])] 1
            "page1" [codes "Hello"; codes "World"; codes "Test"] _ _)).
  - vm_compute. reflexivity.
  - left.
Defined.

(** Only single-line annotations: nothing is done. *)
Example singles_run :
  exit_status (main (Some singles)) = 0%Z ∧
  disk_after (main (Some singles)) = Some (singles.1, NoBackup).
Proof.
  assert (Hglob : glob_gt_txt singles.1 =
                  [("a.gt.txt", TextFile (codes "only one line
")); ("b.gt.txt", TextFile (codes "

"))]) by (vm_compute; reflexivity).
  refine (proj2 (proj2 (proj2 (proj2 (proj2 (proj2
           (scanner_classification singles.1 (State singles.1 NoBackup 0 []) _))))))
           _ NoBackup).
  - unfold readable. rewrite Hglob. repeat constructor.
  - intros name content Hin. rewrite Hglob in Hin.
    apply elem_of_cons in Hin as [[= -> ->] | Hin].
    + vm_compute. lia.
    + apply elem_of_cons in Hin as [[= -> ->] | Hin].
      * vm_compute. lia.
      * inversion Hin.
Qed.

End Runs.

(** * Beyond the numbered properties *)

Import Effects.

(** ** Relations kept by every step *)

Section Preservation.
Context {PIL : Imaging}.

Variable R : state → state → Prop.
Hypothesis R_refl : ∀ s, R s s.
Hypothesis R_trans : ∀ s1 s2 s3, R s1 s2 → R s2 s3 → R s1 s3.

Lemma preserves_ret {A} (a : A) : preserves R (ret a).
Proof. intros s. apply R_refl. Qed.

Lemma preserves_raise {A} (e : exn) : preserves R (raise (A:=A) e).
Proof. intros s. apply R_refl. Qed.

Lemma preserves_bind {A B} (m : M A) (k : A → M B) :
  preserves R m → (∀ a, preserves R (k a)) → preserves R (bind m k).
Proof.
  intros Hm Hk s. unfold bind. specialize (Hm s).
  destruct (m s) as [a s1|e s1]; cbn [final] in *; [|exact Hm].
  eapply R_trans; [exact Hm | apply Hk].
Qed.

Lemma preserves_try_except (body : M unit) (handler : exn → M unit) :
  preserves R body → (∀ e, preserves R (handler e)) →
  preserves R (try_except body handler).
Proof.
  intros Hb Hh s. unfold try_except. specialize (Hb s).
  destruct (body s) as [a s1|e s1]; cbn [final] in *; [exact Hb|].
  eapply R_trans; [exact Hb | apply Hh].
Qed.

Lemma preserves_listing : preserves R listing.
Proof. intros s. apply R_refl. Qed.

Lemma preserves_image_open name : preserves R (image_open name).
Proof.
  intros s. unfold image_open.
  destruct (files s !! name) as [[| |]|]; apply R_refl.
Qed.

(** The steps a relation has to survive: printing a line allowed by [Q],
    writing one line of a record of [P], moving one of its files. *)
Variable Q : message → Prop.
Variable P : string → Prop.
Hypothesis R_say : ∀ m, Q m → preserves R (say m).
Hypothesis R_line : ∀ b img W H lh N k text,
  P b → preserves R (split_line b img W H lh N k text).
Hypothesis R_move : ∀ b name,
  P b → moved_name b name → preserves R (move_to_backup name).

Lemma preserves_split_lines b img W H lh N lines : ∀ k,
  P b → preserves R (split_lines b img W H lh N k lines).
Proof.
  induction lines as [|t rest IH]; intros k Hb; cbn [split_lines].
  - apply preserves_ret.
  - apply preserves_bind; [apply R_line; exact Hb|]. intros _. apply IH. exact Hb.
Qed.

Lemma preserves_split_body b f lines :
  P b → moved_name b f →
  (∀ W H n, Q (InfoImage W H n)) → (∀ n, Q (OkSplitInto n)) →
  preserves R (split_body b f lines).
Proof.
  intros Hb Hf Himg Hok. unfold split_body.
  apply preserves_bind; [apply preserves_image_open|]. intros img.
  destruct (size img) as [W H].
  apply preserves_bind; [apply R_say, Himg|]. intros _.
  destruct (List.length lines) as [|n]; [apply preserves_raise|].
  apply preserves_bind; [apply preserves_split_lines; exact Hb|]. intros _.
  apply preserves_bind; [apply (R_move b); assumption|]. intros _.
  apply preserves_bind; [apply (R_move b); [exact Hb | left; reflexivity]|].
  intros _. apply R_say, Hok.
Qed.

(** When the body raises, its last line was not reached: [Split into]
    need not be allowed. *)
Lemma split_body_Raise_related b f lines s e s1 :
  P b → moved_name b f → (∀ W H n, Q (InfoImage W H n)) →
  split_body b f lines s = Raise e s1 → R s s1.
Proof.
  intros Hb Hf Himg. unfold split_body. intros Hrun.
  apply bind_Raise_inv in Hrun as [Hopen | (img & s0 & Hopen & Hrun)].
  { pose proof (preserves_image_open f s) as H. rewrite Hopen in H. exact H. }
  assert (R s s0) as Hs0.
  { pose proof (preserves_image_open f s) as H. rewrite Hopen in H. exact H. }
  destruct (size img) as [W H].
  apply bind_Raise_inv in Hrun as [Hsay | ([] & s2 & Hsay & Hrun)]; [discriminate|].
  assert (R s0 s2) as Hs2.
  { pose proof (R_say _ (Himg W H (List.length lines)) s0) as Hx.
    rewrite Hsay in Hx. exact Hx. }
  destruct (List.length lines) as [|n].
  { injection Hrun as _ <-. eapply R_trans; eassumption. }
  apply bind_Raise_inv in Hrun as [Hloop | ([] & s3 & Hloop & Hrun)].
  { pose proof (preserves_split_lines b img W H (line_height H (S n)) (S n) lines 1 Hb s2) as Hx.
    rewrite Hloop in Hx. eauto. }
  assert (R s2 s3) as Hs3.
  { pose proof (preserves_split_lines b img W H (line_height H (S n)) (S n) lines 1 Hb s2) as Hx.
    rewrite Hloop in Hx. exact Hx. }
  apply bind_Raise_inv in Hrun as [Hmv | ([] & s4 & Hmv & Hrun)].
  { pose proof (R_move b f Hb Hf s3) as Hx. rewrite Hmv in Hx. eauto. }
  assert (R s3 s4) as Hs4.
  { pose proof (R_move b f Hb Hf s3) as Hx. rewrite Hmv in Hx. exact Hx. }
  apply bind_Raise_inv in Hrun as [Hmv2 | ([] & s5 & Hmv2 & Hrun)]; [|discriminate].
  pose proof (R_move b _ Hb (or_introl eq_refl) s4) as Hx. rewrite Hmv2 in Hx.
  eauto 6.
Qed.

(** Outside [split_line] the script prints no [Created] line. *)
Hypothesis Q_other : ∀ m, is_created m = false → Q m.

Local Ltac say_other := apply R_say, Q_other; reflexivity.

Lemma preserves_process_record b lines :
  P b → preserves R (process_record (b, lines)).
Proof.
  intros Hb. unfold process_record.
  apply preserves_bind; [apply preserves_listing|]. intros fs.
  destruct (find_image fs b image_exts) as [f|] eqn:Hfind; [|say_other].
  apply preserves_bind; [say_other|]. intros _.
  apply preserves_try_except; [|intros e; say_other].
  apply preserves_split_body;
    [exact Hb | | intros; apply Q_other; reflexivity..].
  apply find_image_Some in Hfind as (pre & ext & post & Hexts & -> & _).
  right. exists ext. split; [rewrite Hexts; set_solver | reflexivity].
Qed.

Lemma preserves_split_all records :
  (∀ b lines, (b, lines) ∈ records → P b) →
  preserves R (split_all records).
Proof.
  intros Hall. induction records as [|[b lines] rest IH]; cbn [split_all].
  - apply preserves_ret.
  - apply preserves_bind.
    + apply preserves_process_record. apply (Hall b lines). left.
    + intros _. apply IH. intros b' lines' Hin. apply (Hall b' lines'). right. exact Hin.
Qed.

Lemma preserves_scan entries : ∀ acc total,
  preserves R (scan entries acc total).
Proof.
  induction entries as [|[name n] rest IH]; intros acc total; cbn [scan].
  - apply preserves_ret.
  - apply preserves_bind.
    + destruct n; [apply preserves_ret | apply preserves_raise..].
    + intros lines. destruct (MAX_LINES <? _)%nat; [|apply IH].
      apply preserves_bind; [say_other|]. intros _. apply IH.
Qed.

Hypothesis R_mkdir : preserves R mkdir_backup.

(** The whole of [main] after the directory check. The records are those
    of the directory the run starts from. *)
Lemma bind_related {A B} (m : M A) (k : A → M B) s :
  R s (final (m s)) →
  (∀ a s1, m s = Ok a s1 → R s1 (final (k a s1))) →
  R s (final (bind m k s)).
Proof.
  intros Hm Hk. unfold bind. destruct (m s) as [a s1|e s1]; cbn [final] in *.
  - eapply R_trans; [exact Hm | apply Hk; reflexivity].
  - exact Hm.
Qed.

Lemma main_body_related s :
  (∀ b lines, (b, lines) ∈ records_of (files s) → P b) →
  R s (final (main_body s)).
Proof.
  intros Hall. unfold main_body.
  apply bind_related; [say_other|]. intros [] s0 [= <-].
  apply bind_related; [apply preserves_listing|]. intros fs s0 [= <- <-].
  cbn [said files].
  apply bind_related; [apply preserves_scan|].
  intros [records total] s1 Hscan.
  apply scan_Ok_inv in Hscan as (_ & Hrec & _). cbn [app] in Hrec.
  fold (records_of (files s)) in Hrec. subst records.
  destruct (records_of (files s)) as [|r rest]; [say_other|].
  apply bind_related; [say_other|]. intros _ s2 _.
  apply bind_related; [say_other|]. intros _ s3 _.
  apply bind_related; [apply R_mkdir|]. intros _ s4 _.
  apply bind_related; [apply preserves_split_all; assumption|]. intros _ s5 _.
  apply bind_related; [say_other|]. intros _ s6 _.
  apply bind_related; [say_other|]. intros _ s7 _.
  apply bind_related; [say_other|]. intros _ s8 _.
  apply bind_related; [apply preserves_listing|]. intros fs' s9 _.
  apply bind_related; [say_other|]. intros _ s10 _.
  apply bind_related; [say_other|]. intros _ s11 _.
  say_other.
Qed.

End Preservation.

(** ** The relations, step by step *)

Section Steps.
Context {PIL : Imaging}.

Lemma split_line_final b img W H lh N k text s :
  final (split_line b img W H lh N k text s) = s ∨
  final (split_line b img W H lh N k text s) = truncated (png_name b k) s ∨
  ∃ c, final (split_line b img W H lh N k text s) = emitted b k text c s.
Proof.
  destruct (split_line b img W H lh N k text s) as [[] s'|e s'] eqn:Hrun.
  - apply split_line_Ok in Hrun as [[_ ->] | (_ & c & _ & _ & ->)];
      [left; reflexivity | right; right; exists c; reflexivity].
  - apply split_line_Raise in Hrun as (_ & _ & [[_ ->] | (c & _ & _ & ->)]);
      [left | right; left]; reflexivity.
Qed.

Lemma move_to_backup_final name s :
  final (move_to_backup name s) = s ∨
  ∃ n bk, files s !! name = Some n ∧ backup s = BackupDir bk ∧
    final (move_to_backup name s)
    = with_backup (BackupDir (<[name := n]> bk)) (with_files (delete name) s).
Proof.
  unfold move_to_backup. destruct (files s !! name) as [n|]; [|left; reflexivity].
  destruct (backup s) as [|bk|]; [left; reflexivity | | left; reflexivity].
  right. exists n, bk. repeat split.
Qed.

Lemma mkdir_backup_final s :
  final (mkdir_backup s) = s ∨
  (backup s = NoBackup ∧ final (mkdir_backup s) = with_backup (BackupDir ∅) s).
Proof.
  unfold mkdir_backup. destruct (backup s); [right; split; reflexivity | left; reflexivity..].
Qed.

(** *** Nothing is lost *)

Lemma kept_refl s : kept s s.
Proof. repeat split; auto. Qed.

Lemma kept_trans s1 s2 s3 : kept s1 s2 → kept s2 s3 → kept s1 s3.
Proof.
  intros (Hf1 & Hb1 & Hd1) (Hf2 & Hb2 & Hd2). repeat split; auto.
  intros name Hn. destruct (Hf1 name Hn) as [H|H]; [apply Hf2; exact H|].
  right. apply Hb2. exact H.
Qed.

Lemma kept_say m : preserves kept (say m).
Proof. intros s. unfold kept. cbn. repeat split; auto. Qed.

Lemma kept_line b img W H lh N k text :
  preserves kept (split_line b img W H lh N k text).
Proof.
  intros s. destruct (split_line_final b img W H lh N k text s) as [-> | [-> | [c ->]]];
    [apply kept_refl | |].
  { pose proof (truncated_rest (png_name b k) s) as (Hb & _).
    unfold kept. rewrite Hb. repeat split; auto. intros name Hn. left.
    rewrite truncated_lookup. destruct (decide (name = png_name b k)) as [->|_];
      [|exact Hn]. destruct Hn as [n ->]. eauto. }
  repeat split; auto. intros name Hn. left. unfold emitted. cbn [files].
  rewrite !lookup_insert_is_Some. destruct (decide (gt_name b k = name)); [auto|].
  right. split; [assumption|].
  destruct (decide (png_name b k = name)); auto.
Qed.

Lemma kept_move name : preserves kept (move_to_backup name).
Proof.
  intros s. destruct (move_to_backup_final name s) as [-> | (n & bk & Hn & Hbk & ->)];
    [apply kept_refl|].
  unfold kept, with_backup, with_files. cbn [files backup]. repeat split.
  - intros name' Hn'. destruct (decide (name = name')) as [<-|Hne].
    + right. cbn. rewrite lookup_insert_eq. eauto.
    + left. rewrite lookup_delete_ne by exact Hne. exact Hn'.
  - intros name'. rewrite Hbk. cbn. intros Hin.
    rewrite lookup_insert_is_Some. destruct (decide (name = name')); auto.
Qed.

Lemma kept_mkdir : preserves kept mkdir_backup.
Proof.
  intros s. destruct (mkdir_backup_final s) as [-> | [Hb ->]]; [apply kept_refl|].
  unfold kept, with_backup. cbn [files backup]. rewrite Hb. repeat split; auto.
  intros name [].
Qed.

(** *** Other names are left alone *)

Lemma untouched_refl P s : untouched P s s.
Proof. intros name _. reflexivity. Qed.

Lemma untouched_trans P s1 s2 s3 :
  untouched P s1 s2 → untouched P s2 s3 → untouched P s1 s3.
Proof. intros H1 H2 name Hn. rewrite (H2 name Hn). apply H1. exact Hn. Qed.

Lemma untouched_say P m : preserves (untouched P) (say m).
Proof. intros s name _. reflexivity. Qed.

Lemma untouched_line P b img W H lh N k text :
  P b → preserves (untouched P) (split_line b img W H lh N k text).
Proof.
  intros Hb s. destruct (split_line_final b img W H lh N k text s) as [-> | [-> | [c ->]]];
    [apply untouched_refl | |].
  { intros name Hn. rewrite truncated_lookup. apply decide_False.
    intros ->. apply (Hn b Hb). right. exists k. auto. }
  intros name Hn. unfold emitted. cbn [files].
  rewrite !lookup_insert_ne; [reflexivity | |];
    intros <-; apply (Hn b Hb); right; exists k; auto.
Qed.

Lemma untouched_move P b name :
  P b → moved_name b name → preserves (untouched P) (move_to_backup name).
Proof.
  intros Hb Hm s.
  destruct (move_to_backup_final name s) as [-> | (n & bk & _ & _ & ->)];
    [apply untouched_refl|].
  intros name' Hn. unfold with_backup, with_files. cbn [files].
  apply lookup_delete_ne. intros <-. apply (Hn b Hb). left. exact Hm.
Qed.

Lemma untouched_mkdir P : preserves (untouched P) mkdir_backup.
Proof.
  intros s. destruct (mkdir_backup_final s) as [-> | [_ ->]];
    [apply untouched_refl | intros name _; reflexivity].
Qed.

(** *** The counter and the console *)

Lemma created_count_app out1 out2 :
  created_count (out1 ++ out2) = (created_count out1 + created_count out2)%nat.
Proof. unfold created_count. rewrite List.filter_app, List.length_app. reflexivity. Qed.

Lemma counted_refl s : counted s s.
Proof. unfold counted. lia. Qed.

Lemma counted_trans s1 s2 s3 : counted s1 s2 → counted s2 s3 → counted s1 s3.
Proof. unfold counted. lia. Qed.

Lemma counted_say m : is_created m = false → preserves counted (say m).
Proof.
  intros Hm s. unfold counted, say, said. cbn [final total_split console].
  rewrite created_count_app. unfold created_count at 3. cbn [List.filter].
  rewrite Hm. cbn. lia.
Qed.

Lemma counted_line b img W H lh N k text :
  preserves counted (split_line b img W H lh N k text).
Proof.
  intros s. destruct (split_line_final b img W H lh N k text s) as [-> | [-> | [c ->]]];
    [apply counted_refl | |].
  { pose proof (truncated_rest (png_name b k) s) as (_ & Ht & Hc).
    unfold counted. rewrite Ht, Hc. lia. }
  unfold counted, emitted. cbn [total_split console].
  rewrite created_count_app. cbn. lia.
Qed.

Lemma counted_move name : preserves counted (move_to_backup name).
Proof.
  intros s. destruct (move_to_backup_final name s) as [-> | (n & bk & _ & _ & ->)];
    unfold counted, with_backup, with_files; cbn [total_split console]; lia.
Qed.

Lemma counted_mkdir : preserves counted mkdir_backup.
Proof.
  intros s. destruct (mkdir_backup_final s) as [-> | [_ ->]];
    unfold counted, with_backup, with_files; cbn [total_split console]; lia.
Qed.

Lemma no_verdict_refl s : no_verdict s s.
Proof. exists []. rewrite app_nil_r. split; [reflexivity | constructor]. Qed.

Lemma no_verdict_trans s1 s2 s3 :
  no_verdict s1 s2 → no_verdict s2 s3 → no_verdict s1 s3.
Proof.
  intros (x1 & H1 & Hx1) (x2 & H2 & Hx2). exists (x1 ++ x2).
  rewrite H2, H1, app_assoc. split; [reflexivity | apply Forall_app; auto].
Qed.

Lemma no_verdict_say m :
  went_through m = false ∧ to_stderr m = false → preserves no_verdict (say m).
Proof. intros Hm s. exists [m]. split; [reflexivity | repeat constructor; apply Hm]. Qed.

Lemma no_verdict_line b img W H lh N k text :
  preserves no_verdict (split_line b img W H lh N k text).
Proof.
  intros s. destruct (split_line_final b img W H lh N k text s) as [-> | [-> | [c ->]]];
    [apply no_verdict_refl | |].
  { pose proof (truncated_rest (png_name b k) s) as (_ & _ & Hc).
    exists []. rewrite Hc, app_nil_r. split; [reflexivity | constructor]. }
  eexists. split; [reflexivity|]. repeat constructor.
Qed.

Lemma no_verdict_move name : preserves no_verdict (move_to_backup name).
Proof.
  intros s. destruct (move_to_backup_final name s) as [-> | (n & bk & _ & _ & ->)];
    [apply no_verdict_refl|].
  exists []. unfold with_backup, with_files. cbn [console].
  rewrite app_nil_r. split; [reflexivity | constructor].
Qed.

End Steps.

(** ** Whole runs *)

Section WholeRuns.
Context {PIL : Imaging}.

Lemma main_Some fs b :
  printed (main (Some (fs, b))) = console (final (main_body (State fs b 0 banner))) ∧
  disk_after (main (Some (fs, b)))
  = Some (files (final (main_body (State fs b 0 banner))),
          backup (final (main_body (State fs b 0 banner)))).
Proof.
  cbn [main]. destruct (main_body (State fs b 0 banner)) as [[] s|e s];
    split; reflexivity.
Qed.

Lemma went_through_count_app out1 out2 :
  went_through_count (out1 ++ out2)
  = (went_through_count out1 + went_through_count out2)%nat.
Proof. unfold went_through_count. rewrite List.filter_app, List.length_app. reflexivity. Qed.

Lemma stderr_count_app out1 out2 :
  stderr_count (out1 ++ out2) = (stderr_count out1 + stderr_count out2)%nat.
Proof. unfold stderr_count. rewrite List.filter_app, List.length_app. reflexivity. Qed.

Lemma quiet_counts extra :
  Forall (λ m, went_through m = false ∧ to_stderr m = false) extra →
  went_through_count extra = 0%nat ∧ stderr_count extra = 0%nat.
Proof.
  unfold went_through_count, stderr_count.
  induction 1 as [|m extra [Hw He] _ [IHw IHe]]; [split; reflexivity|].
  cbn [List.filter]. rewrite Hw, He. split; assumption.
Qed.

Lemma no_verdict_counts s s' :
  no_verdict s s' →
  went_through_count (console s') = went_through_count (console s) ∧
  stderr_count (console s') = stderr_count (console s).
Proof.
  intros (extra & -> & Hq). apply quiet_counts in Hq as [Hw He].
  rewrite went_through_count_app, stderr_count_app, Hw, He. lia.
Qed.

Lemma found_quiet records :
  Forall (λ m, went_through m = false ∧ to_stderr m = false) (found records).
Proof. unfold found. apply Forall_fmap, Forall_forall. intros r _. split; reflexivity. Qed.

(** One record, one verdict. *)
Lemma process_record_verdict b lines s :
  let out := console (final (process_record (b, lines) s)) in
  (went_through_count out + stderr_count out
   = went_through_count (console s) + stderr_count (console s) + 1)%nat.
Proof.
  cbv zeta.
  destruct (process_record_cases b lines s)
    as [[_ ->] | (f & Hf & [(s' & Hb & ->) | (e & s1 & Hb & ->)])]; cbn [final].
  - cbn [said console]. rewrite went_through_count_app, stderr_count_app. cbn. lia.
  - apply split_body_Ok in Hb as (img & s1 & n_f & n_gt & bk & _ & _ & Hloop & _ & _ & _ & _ & ->).
    match type of Hloop with
    | split_lines _ _ ?w ?h ?l ?n _ _ ?s0 = _ =>
        pose proof (preserves_split_lines no_verdict no_verdict_refl no_verdict_trans
                      (λ _, True)
                      (λ b0 i0 W0 H0 lh0 N0 k0 t0 _, no_verdict_line b0 i0 W0 H0 lh0 N0 k0 t0)
                      b img w h l n lines 1 I s0) as Hq
    end.
    rewrite Hloop in Hq. cbn [final] in Hq.
    apply no_verdict_counts in Hq as [Hw He]. cbn [said console] in *.
    rewrite !went_through_count_app, !stderr_count_app in *.
    cbn in *. lia.
  - assert (Hq : no_verdict (said (InfoProcessing b) s) s1).
    { apply (split_body_Raise_related no_verdict no_verdict_refl no_verdict_trans
               (λ m, went_through m = false ∧ to_stderr m = false) (λ _, True)
               no_verdict_say
               (λ b img W H lh N k t _, no_verdict_line b img W H lh N k t)
               (λ b name _ _, no_verdict_move name)
               b f lines _ e s1 I); [|split; reflexivity|exact Hb].
      apply find_image_Some in Hf as (pre & ext & post & Hexts & -> & _).
      right. exists ext. split; [rewrite Hexts; set_solver | reflexivity]. }
    apply no_verdict_counts in Hq as [Hw He]. cbn [said console] in *.
    rewrite !went_through_count_app, !stderr_count_app in *.
    cbn in *. lia.
Qed.

Lemma split_all_verdicts records : ∀ s,
  let out := console (final (split_all records s)) in
  (went_through_count out + stderr_count out
   = went_through_count (console s) + stderr_count (console s)
     + List.length records)%nat.
Proof.
  induction records as [|[b lines] rest IH]; intros s; cbv zeta; cbn [split_all].
  - cbn. lia.
  - pose proof (process_record_verdict b lines s) as H1. cbv zeta in H1.
    destruct (process_record_total (b, lines) s) as [s1 Hs1].
    rewrite (bind_Ok _ _ _ _ _ Hs1). rewrite Hs1 in H1. cbn [final] in H1.
    specialize (IH s1). cbv zeta in IH. rewrite IH. cbn [List.length]. lia.
Qed.

End WholeRuns.

(** ** Lines of text *)

Section LineFacts.

Lemma translate_newlines_other (c : N) (r : str) :
  c ≠ CR → translate_newlines (c :: r) = c :: translate_newlines r.
Proof.
  intros Hc. destruct c as [|p]; [reflexivity|].
  do 4 (try (destruct p as [p|p|]; try reflexivity)).
  exfalso. apply Hc. reflexivity.
Qed.

Lemma translate_newlines_CR (r : str) :
  translate_newlines (CR :: r)
  = LF :: translate_newlines (match r with 10%N :: r' => r' | _ => r end).
Proof.
  destruct r as [|c r]; [reflexivity|].
  destruct c as [|p]; [reflexivity|].
  do 4 (try (destruct p as [p|p|]; try reflexivity)).
Qed.

Lemma translate_newlines_no_CR (s : str) : CR ∉ translate_newlines s.
Proof.
  remember (List.length s) as n eqn:Hn. revert s Hn.
  induction n as [n IH] using lt_wf_ind. intros s Hn.
  destruct s as [|c r]; [cbn; apply not_elem_of_nil|].
  destruct (decide (c = CR)) as [->|Hc].
  - rewrite translate_newlines_CR. apply not_elem_of_cons. split; [discriminate|].
    apply (IH (List.length (match r with 10%N :: r' => r' | _ => r end))); [|reflexivity].
    subst n. cbn. destruct r as [|[|p] r]; cbn; try lia.
    do 4 (try (destruct p as [p|p|]; cbn; try lia)).
  - rewrite translate_newlines_other by exact Hc.
    apply not_elem_of_cons. split; [congruence|].
    apply (IH (List.length r)); [subst n; cbn; lia | reflexivity].
Qed.

Lemma translate_newlines_id (s : str) : CR ∉ s → translate_newlines s = s.
Proof.
  induction s as [|c r IH]; [reflexivity|]. intros Hno.
  apply not_elem_of_cons in Hno as [Hc Hr].
  rewrite translate_newlines_other by congruence. rewrite IH by exact Hr. reflexivity.
Qed.

Lemma elem_of_rev {A} (x : A) (l : list A) : x ∈ rev l ↔ x ∈ l.
Proof. rewrite !list_elem_of_In. symmetry. apply in_rev. Qed.

(** Every line read has its only line feed, if any, at its end. *)
Lemma split_keepends_lines (s : str) : ∀ cur line,
  LF ∉ cur → line ∈ split_keepends cur s →
  ∃ body, (line = body ++ [LF] ∨ line = body) ∧ (LF ∉ body) ∧
          ∀ c, c ∈ body → c ∈ cur ∨ c ∈ s.
Proof.
  induction s as [|c r IH]; intros cur line Hcur Hin; cbn [split_keepends] in Hin.
  - destruct cur as [|a cur']; [inversion Hin|].
    apply list_elem_of_singleton in Hin as ->. exists (rev (a :: cur')).
    split; [right; reflexivity|]. split.
    + rewrite elem_of_rev. exact Hcur.
    + intros x Hx. left. apply elem_of_rev. exact Hx.
  - destruct (N.eqb_spec c LF) as [->|Hc].
    + apply elem_of_cons in Hin as [-> | Hin].
      * exists (rev cur). split; [left; reflexivity|]. split.
        -- rewrite elem_of_rev. exact Hcur.
        -- intros x Hx. left. apply elem_of_rev. exact Hx.
      * destruct (IH [] line (not_elem_of_nil _) Hin) as (body & Hl & Hb & Hsub).
        exists body. split; [exact Hl|]. split; [exact Hb|].
        intros x Hx. destruct (Hsub x Hx) as [H|H]; [inversion H|].
        right. right. exact H.
    + assert (Hcur' : LF ∉ c :: cur).
      { apply not_elem_of_cons. split; [congruence | exact Hcur]. }
      destruct (IH (c :: cur) line Hcur' Hin) as (body & Hl & Hb & Hsub).
      exists body. split; [exact Hl|]. split; [exact Hb|].
      intros x Hx. destruct (Hsub x Hx) as [H|H].
      * apply elem_of_cons in H as [-> | H]; [right; left | left; exact H].
      * right. right. exact H.
Qed.

Lemma split_keepends_one (body : str) : ∀ cur,
  LF ∉ body → split_keepends cur (body ++ [LF]) = [rev cur ++ body ++ [LF]].
Proof.
  induction body as [|c r IH]; intros cur Hno.
  - cbn. reflexivity.
  - apply not_elem_of_cons in Hno as [Hc Hr].
    cbn [app split_keepends]. destruct (N.eqb_spec c LF) as [->|_]; [congruence|].
    rewrite IH by exact Hr. cbn [rev]. rewrite <- app_assoc. reflexivity.
Qed.

Lemma isspace_LF : isspace LF = true.
Proof. reflexivity. Qed.

Lemma lstrip_dense (s : str) c r : lstrip s = c :: r → ∀ t, lstrip (s ++ t) = lstrip s ++ t.
Proof.
  induction s as [|d u IH]; cbn [lstrip app]; [discriminate|].
  destruct (isspace d); [exact IH | reflexivity].
Qed.

Lemma lstrip_blank (s : str) : lstrip s = [] → ∀ t, lstrip (s ++ t) = lstrip t.
Proof.
  induction s as [|d u IH]; cbn [lstrip app]; [reflexivity|].
  destruct (isspace d); [exact IH | discriminate].
Qed.

Lemma rstrip_snoc_space (s : str) c : isspace c = true → rstrip (s ++ [c]) = rstrip s.
Proof.
  intros Hc. unfold rstrip. rewrite rev_app_distr. cbn [rev app lstrip].
  rewrite Hc. reflexivity.
Qed.

(** The line feed that ends a line does not survive [strip]. *)
Lemma strip_snoc_LF (body : str) : strip (body ++ [LF]) = strip body.
Proof.
  unfold strip. destruct (lstrip body) as [|c r] eqn:Hl.
  - rewrite (lstrip_blank body Hl). reflexivity.
  - rewrite (lstrip_dense body c r Hl), Hl. apply rstrip_snoc_space, isspace_LF.
Qed.

Lemma strip_sub (s : str) c : c ∈ strip s → c ∈ s.
Proof.
  unfold strip. intros Hc.
  destruct (rstrip_split (lstrip s)) as [q [Hq _]].
  destruct (lstrip_split s) as [p [Hp _]].
  rewrite Hp, Hq. apply elem_of_app. right. apply elem_of_app. left. exact Hc.
Qed.

Lemma lstrip_id (s : str) : (∀ c, head s = Some c → isspace c = false) → lstrip s = s.
Proof.
  destruct s as [|c r]; [reflexivity|]. intros H. cbn [lstrip].
  rewrite (H c eq_refl). reflexivity.
Qed.

Lemma rstrip_id (s : str) : (∀ c, last s = Some c → isspace c = false) → rstrip s = s.
Proof.
  intros H. unfold rstrip. rewrite lstrip_id; [apply rev_involutive|].
  intros c Hc. apply H. rewrite <- last_rev_head, rev_involutive in Hc. exact Hc.
Qed.

(** [strip] does nothing to a string it has already stripped. *)
Lemma strip_idem (s : str) : strip (strip s) = strip s.
Proof.
  unfold strip at 1. rewrite lstrip_id by apply strip_head.
  apply rstrip_id, strip_last.
Qed.

End LineFacts.

(** ** Further properties *)

Section TextProperties.
Context {PIL : Imaging}.

Lemma scanner_line_clean (content line : str) :
  line ∈ stripped_lines content →
  line ≠ [] ∧ (LF ∉ line) ∧ (CR ∉ line) ∧
  (∀ c, head line = Some c → isspace c = false) ∧
  (∀ c, last line = Some c → isspace c = false) ∧
  strip line = line.
Proof.
  intros Hin. apply stripped_lines_elem in Hin as (raw & Hraw & -> & Hne).
  unfold file_lines in Hraw.
  apply split_keepends_lines in Hraw as (body & Hshape & HLF & Hsub);
    [|apply not_elem_of_nil].
  assert (Hstrip : strip raw = strip body).
  { destruct Hshape as [-> | ->]; [apply strip_snoc_LF | reflexivity]. }
  rewrite Hstrip in *.
  split; [exact Hne|]. split.
  { intros Hc. apply HLF. apply strip_sub. exact Hc. }
  split.
  { intros Hc. apply strip_sub in Hc. destruct (Hsub _ Hc) as [H|H]; [inversion H|].
    exact (translate_newlines_no_CR content H). }
  split; [apply strip_head|]. split; [apply strip_last | apply strip_idem].
Qed.

(** X13. A line kept by the scanner is not empty, holds no line feed and
    no carriage return, neither starts nor ends with white space, and is
    left as it is by another [strip]. *)
Theorem X13_scanner_lines_are_clean (content line : str) :
  line ∈ stripped_lines content →
  line ≠ [] ∧ (LF ∉ line) ∧ (CR ∉ line) ∧
  (∀ c, head line = Some c → isspace c = false) ∧
  (∀ c, last line = Some c → isspace c = false) ∧
  strip line = line.
Proof. apply scanner_line_clean. Qed.

(** X14. The annotation written for a scanner line, the line followed by
    a line feed, reads back as that one line: scanned again it has a line
    count of 1 and gives no record. *)
Theorem X14_written_annotation_is_single_line (content line : str)
    (name : string) :
  line ∈ stripped_lines content →
  stripped_lines (line ++ [LF]) = [line] ∧
  multiline_record (name, TextFile (line ++ [LF])) = None.
Proof.
  intros Hin.
  destruct (scanner_line_clean content line Hin)
    as (Hne & HLF & HCR & _ & _ & Hid).
  assert (Hone : stripped_lines (line ++ [LF]) = [line]).
  { unfold stripped_lines, file_lines.
    rewrite translate_newlines_id.
    - rewrite split_keepends_one by exact HLF. cbn [rev app].
      rewrite filter_cons_True.
      + cbn. rewrite strip_snoc_LF, Hid. reflexivity.
      + rewrite strip_snoc_LF, Hid. apply truthy_nonempty. exact Hne.
    - intros Hc. apply elem_of_app in Hc as [Hc | Hc]; [exact (HCR Hc)|].
      apply list_elem_of_singleton in Hc. discriminate. }
  split; [exact Hone|].
  rewrite multiline_record_text, Hone. reflexivity.
Qed.

End TextProperties.

Section BandProperties.
Local Open Scope Z_scope.

(** X1. Every box handed to [crop] lies inside the image and is not
    inverted: left is 0, right is the width, and
    0 <= upper <= lower <= height. *)
Theorem X1_crop_box_inside_image (W H : Z) (N i : nat) :
  (1 ≤ N)%nat → 0 ≤ H → 0 ≤ W → (1 ≤ i ≤ N)%nat →
  let '(x0, y0, x1, y1) := crop_box W H (line_height H N) N i in
  x0 = 0 ∧ x1 = W ∧ x0 ≤ x1 ∧ 0 ≤ y0 ∧ y0 ≤ y1 ∧ y1 ≤ H.
Proof.
  intros HN HH HW Hi.
  pose proof (band_ordered W H N HN HH i Hi) as Hord.
  unfold crop_box, upper, lower in *. lia.
Qed.

(** X2. The last band takes the remainder of the division: its height is
    line_height + H mod N. No band is taller, it exceeds the others by
    less than N, and all bands have the same height exactly when N
    divides H. *)
Theorem X2_last_band_takes_the_remainder (W H : Z) (N : nat) :
  (1 ≤ N)%nat → 0 ≤ H →
  let lh := line_height H N in
  let band := crop_box W H lh N in
  box_height (band N) = lh + H `mod` Z.of_nat N ∧
  (∀ i, (1 ≤ i ≤ N)%nat →
     lh ≤ box_height (band i) ∧ box_height (band i) ≤ box_height (band N)) ∧
  box_height (band N) < lh + Z.of_nat N ∧
  ((∀ i, (1 ≤ i ≤ N)%nat → box_height (band i) = lh) ↔ H `mod` Z.of_nat N = 0).
Proof.
  intros HN HH. cbv zeta.
  pose proof (Z.div_mod H (Z.of_nat N) ltac:(lia)) as Hdm.
  pose proof (Z.mod_pos_bound H (Z.of_nat N) ltac:(lia)) as Hmod.
  fold (line_height H N) in Hdm.
  assert (Hlast : box_height (crop_box W H (line_height H N) N N)
                  = line_height H N + H `mod` Z.of_nat N).
  { unfold box_height. rewrite band_upper, band_lower_last by lia. lia. }
  assert (Hinner : ∀ i, (1 ≤ i < N)%nat →
            box_height (crop_box W H (line_height H N) N i) = line_height H N).
  { intros i Hi. unfold box_height.
    rewrite band_upper, band_lower_inner by lia. lia. }
  split; [exact Hlast|]. split.
  { intros i Hi. destruct (decide (i = N)) as [->|Hne].
    - rewrite Hlast. lia.
    - rewrite (Hinner i) by lia. rewrite Hlast. lia. }
  split; [rewrite Hlast; lia|]. split.
  - intros Hall. specialize (Hall N ltac:(lia)). rewrite Hlast in Hall. lia.
  - intros Hz i Hi. destruct (decide (i = N)) as [->|Hne].
    + rewrite Hlast. lia.
    + apply Hinner. lia.
Qed.

(** X3. Every band has at least one pixel row exactly when the image has
    at least as many rows as the record has lines. *)
Theorem X3_bands_nonempty_iff_enough_rows (W H : Z) (N : nat) :
  (1 ≤ N)%nat → 0 ≤ H →
  let band := crop_box W H (line_height H N) N in
  (∀ i, (1 ≤ i ≤ N)%nat → 1 ≤ box_height (band i)) ↔ Z.of_nat N ≤ H.
Proof.
  intros HN HH. cbv zeta.
  pose proof (Z.div_mod H (Z.of_nat N) ltac:(lia)) as Hdm.
  pose proof (Z.mod_pos_bound H (Z.of_nat N) ltac:(lia)) as Hmod.
  fold (line_height H N) in Hdm.
  pose proof (line_height_bounds H N HN HH) as [Hlh0 _].
  assert (Hheight : ∀ i, (1 ≤ i ≤ N)%nat →
            line_height H N ≤ box_height (crop_box W H (line_height H N) N i)).
  { intros i Hi. unfold box_height. rewrite band_upper.
    destruct (decide (i < N)%nat).
    - rewrite band_lower_inner by lia. lia.
    - rewrite band_lower_last by lia. nia. }
  split.
  - intros Hall. specialize (Hall 1%nat ltac:(lia)).
    unfold box_height in Hall. rewrite band_upper in Hall.
    destruct (decide (1 < N)%nat).
    + rewrite band_lower_inner in Hall by lia. nia.
    + rewrite band_lower_last in Hall by lia. lia.
  - intros Hge i Hi. specialize (Hheight i Hi).
    assert (1 ≤ line_height H N) by nia. lia.
Qed.

End BandProperties.

Section RunProperties.
Context {PIL : Imaging}.

Lemma scan_reads_only (entries : list (string * node))
    (acc : list (string * list str)) (total : nat) (s : state) :
  let s' := final (scan entries acc total s) in
  files s' = files s ∧ backup s' = backup s ∧ total_split s' = total_split s ∧
  ∃ extra, console s' = console s ++ extra ∧
    Forall (λ m, ∃ b n, m = InfoFoundMultiline b n ∧ (2 ≤ n)%nat) extra.
Proof.
  revert acc total s. induction entries as [|[name n] rest IH]; intros acc total s.
  - cbn. repeat split. exists []. rewrite app_nil_r. split; [reflexivity | constructor].
  - destruct n as [content| |];
      try (cbn; repeat split; exists []; rewrite app_nil_r;
           split; [reflexivity | constructor]).
    assert (Hstep : scan ((name, TextFile content) :: rest) acc total s =
              if (MAX_LINES <? List.length (stripped_lines content))%nat
              then scan rest (acc ++ [(base_name_of name, stripped_lines content)])
                     (S total)
                     (said (InfoFoundMultiline (base_name_of name)
                              (List.length (stripped_lines content))) s)
              else scan rest acc (S total) s).
    { cbn [scan read_annotation]. unfold bind at 1, ret at 1.
      destruct (MAX_LINES <? _)%nat; reflexivity. }
    rewrite Hstep. clear Hstep.
    destruct (MAX_LINES <? List.length (stripped_lines content))%nat eqn:Hm;
      [|apply IH].
    specialize (IH (acc ++ [(base_name_of name, stripped_lines content)]) (S total)
                  (said (InfoFoundMultiline (base_name_of name)
                           (List.length (stripped_lines content))) s)).
    cbv zeta in IH. destruct IH as (Hf & Hb & Ht & extra & Hc & Hx).
    cbv zeta. rewrite Hf, Hb, Ht, Hc. repeat split.
    eexists. cbn [said console]. rewrite <- app_assoc. split; [reflexivity|].
    constructor; [|exact Hx]. eexists _, _. split; [reflexivity|].
    apply Nat.ltb_lt in Hm. exact Hm.
Qed.

(** X4. The scan only reads: whether it finishes or stops at an entry it
    cannot decode, the directory, [multiline_originals] and [total_split]
    are as before, and all it has printed are [Found multi-line] lines,
    each for a file of at least two lines. *)
Theorem X4_scan_only_reads (entries : list (string * node))
    (acc : list (string * list str)) (total : nat) (s : state) :
  let s' := final (scan entries acc total s) in
  files s' = files s ∧ backup s' = backup s ∧ total_split s' = total_split s ∧
  ∃ extra, console s' = console s ++ extra ∧
    Forall (λ m, ∃ b n, m = InfoFoundMultiline b n ∧ (2 ≤ n)%nat) extra.
Proof. apply scan_reads_only. Qed.

(** X5. When some [*.gt.txt] entry does not decode as text, the run ends
    with status 1 and has changed nothing: the directory is as it was and
    [multiline_originals] has not even been created, whatever else the
    directory holds. *)
Theorem X5_unreadable_annotation_stops_the_run (fs : gmap string node)
    (b : backup_state) :
  ¬ readable fs →
  exit_status (main (Some (fs, b))) = 1%Z ∧
  disk_after (main (Some (fs, b))) = Some (fs, b) ∧
  went_through_count (printed (main (Some (fs, b)))) = 0%nat.
Proof.
  intros Hnot. cbn [main].
  pose proof (scan_reads_only (glob_gt_txt fs) [] 0
                (said (Note "Analyzing ground truth files...") (State fs b 0 banner)))
    as Hscan.
  cbv zeta in Hscan.
  destruct (scan_Raise (glob_gt_txt fs) [] 0
              (said (Note "Analyzing ground truth files...") (State fs b 0 banner)) Hnot)
    as (s' & Hs' & _).
  rewrite Hs' in Hscan. cbn [final said files backup console] in Hscan.
  destruct Hscan as (Hf & Hb & _ & extra & Hc & Hx).
  assert (Hrun : main_body (State fs b 0 banner) = Raise UnicodeDecodeError s').
  { unfold main_body, bind, say, listing. cbv beta iota. cbn [said files].
    rewrite Hs'. reflexivity. }
  rewrite Hrun. cbn [exit_status disk_after printed]. rewrite Hf, Hb, Hc.
  split; [reflexivity|]. split; [reflexivity|].
  rewrite !went_through_count_app.
  assert (went_through_count extra = 0%nat) as ->.
  { unfold went_through_count. clear Hc. induction Hx as [|m extra (b0 & n & -> & _) _ IH];
      [reflexivity | exact IH]. }
  reflexivity.
Qed.

(** X6. When the scan finds at least one multi-line file and
    [multiline_originals] is absent or a directory, the run ends with
    status 0 and [multiline_originals] is a directory afterwards, even if
    every record fails. *)
Theorem X6_backup_directory_is_made (fs : gmap string node) (b : backup_state) :
  readable fs → records_of fs ≠ [] → b ≠ BackupNotDir →
  exit_status (main (Some (fs, b))) = 0%Z ∧
  ∃ fs' bk', disk_after (main (Some (fs, b))) = Some (fs', BackupDir bk').
Proof.
  intros Hread Hrec Hb. cbn [main].
  rewrite main_body_scanned by exact Hread. cbn [files backup].
  destruct (records_of fs) as [|r rest] eqn:Hr; [congruence|].
  set (bk := match b with BackupDir bk => bk | _ => ∅ end).
  pose proof (preserves_split_all kept kept_refl kept_trans (λ _, True) (λ _, True)
                (λ m _, kept_say m)
                (λ b0 i0 W0 H0 lh0 N0 k0 t0 _, kept_line b0 i0 W0 H0 lh0 N0 k0 t0)
                (λ b0 name _ _, kept_move name) (λ _ _, I)
                (r :: rest) (λ _ _ _, I) (ready bk (State fs b 0 banner)))
    as (_ & _ & Hdir).
  destruct (split_all_total (r :: rest) (ready bk (State fs b 0 banner))) as [s1 Hs1].
  rewrite Hs1 in Hdir. cbn [final] in Hdir.
  specialize (Hdir I).
  destruct b as [|bk0|]; [| |congruence]; subst bk; cbv zeta;
    rewrite Hs1; cbn [exit_status disk_after files backup];
    (split; [reflexivity|]); destruct (backup s1); try contradiction; eauto.
Qed.

(** X7. A run deletes nothing: every name that was in the directory is
    afterwards still in the directory or in [multiline_originals], and
    every name that was in [multiline_originals] is still there. *)
Theorem X7_no_name_is_lost (fs : gmap string node) (b : backup_state) :
  ∃ fs' b', disk_after (main (Some (fs, b))) = Some (fs', b') ∧
    (∀ name, is_Some (fs !! name) →
             is_Some (fs' !! name) ∨ in_backup b' name) ∧
    (∀ name, in_backup b name → in_backup b' name).
Proof.
  destruct (main_Some fs b) as [_ Hdisk]. eexists _, _. split; [exact Hdisk|].
  pose proof (main_body_related kept kept_refl kept_trans (λ _, True) (λ _, True)
                (λ m _, kept_say m)
                (λ b0 i0 W0 H0 lh0 N0 k0 t0 _, kept_line b0 i0 W0 H0 lh0 N0 k0 t0)
                (λ b0 name _ _, kept_move name) (λ _ _, I) kept_mkdir
                (State fs b 0 banner) (λ _ _ _, I)) as (Hf & Hb & _).
  split; [exact Hf | exact Hb].
Qed.

(** X8. A run leaves alone every entry whose name belongs to no record:
    a name that is, for no multi-line file's base name [b], one of
    [b.gt.txt], [b] with an image extension, [b_lineNNN.png] or
    [b_lineNNN.gt.txt], holds after the run what it held before. *)
Theorem X8_other_entries_untouched (fs : gmap string node) (b : backup_state)
    (name : string) :
  (∀ base lines, (base, lines) ∈ records_of fs → ¬ own_name base name) →
  ∃ fs' b', disk_after (main (Some (fs, b))) = Some (fs', b') ∧
            fs' !! name = fs !! name.
Proof.
  intros Hother. destruct (main_Some fs b) as [_ Hdisk].
  eexists _, _. split; [exact Hdisk|].
  set (P := λ base : string, ∃ lines, (base, lines) ∈ records_of fs).
  apply (main_body_related (untouched P) (untouched_refl P) (untouched_trans P)
           (λ _, True) P (λ m _, untouched_say P m)
           (λ b0 i0 W0 H0 lh0 N0 k0 t0, untouched_line P b0 i0 W0 H0 lh0 N0 k0 t0)
           (untouched_move P) (λ _ _, I) (untouched_mkdir P)
           (State fs b 0 banner)).
  - intros base lines Hin. exists lines. exact Hin.
  - intros base [lines Hin]. apply (Hother base lines Hin).
Qed.

(** X9. Every record gets exactly one verdict: either the line
    [Split into ...] on standard output or one line on standard error
    ([Image file not found] or [Failed to process]). So in a run that
    reaches the summary the number printed after [Successfully split] is
    the number of records that went through plus the number of lines on
    standard error. *)
Theorem X9_one_verdict_per_record :
  (∀ records s,
     let out := console (final (split_all records s)) in
     (went_through_count out + stderr_count out
      = went_through_count (console s) + stderr_count (console s)
        + List.length records)%nat) ∧
  (∀ fs b, readable fs → b ≠ BackupNotDir →
     let out := printed (main (Some (fs, b))) in
     (went_through_count out + stderr_count out = List.length (records_of fs))%nat ∧
     (records_of fs ≠ [] → OkSuccessfullySplit (List.length (records_of fs)) ∈ out)).
Proof.
  split; [apply split_all_verdicts|].
  intros fs b Hread Hb. cbv zeta. cbn [main].
  rewrite main_body_scanned by exact Hread. cbn [files backup].
  destruct (records_of fs) as [|r rest] eqn:Hr.
  - unfold say, said, scanned. cbn [final console printed files]. rewrite Hr.
    split; [reflexivity | congruence].
  - set (bk := match b with BackupDir bk => bk | _ => ∅ end).
    pose proof (split_all_verdicts (r :: rest) (ready bk (State fs b 0 banner))) as Hv.
    cbv zeta in Hv.
    destruct (split_all_total (r :: rest) (ready bk (State fs b 0 banner))) as [s1 Hs1].
    rewrite Hs1 in Hv. cbn [final] in Hv.
    assert (Hready : went_through_count (console (ready bk (State fs b 0 banner))) = 0%nat ∧
                     stderr_count (console (ready bk (State fs b 0 banner))) = 0%nat).
    { apply quiet_counts. unfold ready, scanned, said, with_backup.
      cbn [console files]. rewrite Hr.
      repeat (apply Forall_app; split); try apply found_quiet;
        repeat constructor. }
    destruct Hready as [Hw He]. rewrite Hw, He in Hv.
    destruct b as [|bk0|]; [| |congruence]; subst bk; cbv zeta; rewrite Hs1;
      cbn [printed console];
      rewrite went_through_count_app, stderr_count_app; unfold summary;
      (split; [cbn in *; lia|]); intros _;
      apply elem_of_app; right; set_solver.
Qed.

(** X10. [total_split] counts the pairs written: over any stretch of the
    loop, failed records included, it grows by the number of [Created]
    lines printed, and at the end of a run it equals the number of
    [Created] lines on the console. *)
Theorem X10_total_split_counts_created :
  (∀ records s,
     let s' := final (split_all records s) in
     (total_split s' + created_count (console s)
      = total_split s + created_count (console s'))%nat) ∧
  (∀ fs b,
     let s' := final (main_body (State fs b 0 banner)) in
     total_split s' = created_count (console s') ∧
     printed (main (Some (fs, b))) = console s').
Proof.
  split.
  - intros records s.
    apply (preserves_split_all counted counted_refl counted_trans
             (λ m, is_created m = false) (λ _, True) counted_say
             (λ b0 i0 W0 H0 lh0 N0 k0 t0 _, counted_line b0 i0 W0 H0 lh0 N0 k0 t0)
             (λ b0 name _ _, counted_move name) (λ m Hm, Hm)
             records (λ _ _ _, I) s).
  - intros fs b. cbv zeta. split; [|apply main_Some].
    pose proof (main_body_related counted counted_refl counted_trans
                  (λ m, is_created m = false) (λ _, True) counted_say
                  (λ b0 i0 W0 H0 lh0 N0 k0 t0 _, counted_line b0 i0 W0 H0 lh0 N0 k0 t0)
                  (λ b0 name _ _, counted_move name) (λ m Hm, Hm) counted_mkdir
                  (State fs b 0 banner) (λ _ _ _, I)) as Hc.
    unfold counted in Hc. cbn [total_split console] in Hc.
    change (created_count banner) with 0%nat in Hc. lia.
Qed.

End RunProperties.

Section RecordProperties.
Context {PIL : Imaging}.

Lemma image_ext_not_gt_txt ext : ext ∈ image_exts → ext ≠ ".gt.txt".
Proof.
  intros Hin ->. unfold image_exts in Hin.
  repeat (apply elem_of_cons in Hin as [Hin|Hin]; [discriminate|]).
  inversion Hin.
Qed.

(** How the body of the [try] can stop. *)
Lemma split_body_Raise_cases b f lines s e s1 :
  split_body b f lines s = Raise e s1 →
  (files s !! f = None ∧ e = FileNotFoundError ∧ s1 = s) ∨
  (∃ n, files s !! f = Some n ∧ (∀ img, n ≠ ImageFile img) ∧
        e = UnidentifiedImageError ∧ s1 = s) ∨
  (∃ img, files s !! f = Some (ImageFile img) ∧
     let W := (size img).1 in
     let H := (size img).2 in
     let N := List.length lines in
     let sI := said (InfoImage W H N) s in
     (lines = [] ∧ e = ZeroDivisionError ∧ s1 = sI) ∨
     (e = ImagingError ∧ ∃ done t rest s0, lines = done ++ t :: rest ∧ t ≠ [] ∧
        split_lines b img W H (line_height H N) N 1 done sI = Ok tt s0 ∧
        split_line b img W H (line_height H N) N (1 + List.length done) t s0
        = Raise e s1) ∨
     (e = FileNotFoundError ∧ ∃ s3,
        split_lines b img W H (line_height H N) N 1 lines sI = Ok tt s3 ∧
        ((s1 = s3 ∧ (files s3 !! f = None ∨ ¬ is_dir (backup s3))) ∨
         (∃ n bk, files s3 !! f = Some n ∧ backup s3 = BackupDir bk ∧
            s1 = with_backup (BackupDir (<[f := n]> bk)) (with_files (delete f) s3) ∧
            delete f (files s3) !! (b +:+ ".gt.txt") = None)))).
Proof.
  unfold split_body. intros Hrun.
  apply bind_Raise_inv in Hrun as [Hopen | (img & s0 & Hopen & Hrun)].
  { unfold image_open in Hopen. destruct (files s !! f) as [n|] eqn:Hf.
    - right. left. exists n. destruct n as [c|img|]; try discriminate;
        injection Hopen as <- <-; repeat split; discriminate.
    - injection Hopen as <- <-. left. repeat split. }
  unfold image_open in Hopen.
  destruct (files s !! f) as [[c|img'|]|] eqn:Hf; try discriminate.
  injection Hopen as -> ->.
  right. right. exists img. split; [reflexivity|].
  destruct (size img) as [W H]. cbn [fst snd]. cbv zeta.
  apply bind_Raise_inv in Hrun as [Hsay | ([] & s2 & Hsay & Hrun)]; [discriminate|].
  injection Hsay as <-.
  destruct lines as [|l0 rest0].
  { left. injection Hrun as <- <-. repeat split. }
  right. cbn [List.length] in Hrun. cbv iota in Hrun.
  apply bind_Raise_inv in Hrun as [Hloop | ([] & s3 & Hloop & Hrun)].
  { left. apply split_lines_Raise in Hloop
      as (-> & done & t & rest & sd & Hl & Ht & Hdone & Hfail).
    split; [reflexivity|]. exists done, t, rest, sd. repeat split; assumption. }
  right.
  apply bind_Raise_inv in Hrun as [Hmv | ([] & s4 & Hmv & Hrun)].
  { unfold move_to_backup in Hmv.
    destruct (files s3 !! f) as [n|] eqn:Hf3.
    - destruct (backup s3) as [|bk|] eqn:Hb3; try discriminate;
        injection Hmv as <- <-; (split; [reflexivity|]); exists s3;
        (split; [exact Hloop|]); left; (split; [reflexivity|]); right;
        rewrite Hb3; intros [].
    - injection Hmv as <- <-. split; [reflexivity|]. exists s3.
      split; [exact Hloop|]. left. split; [reflexivity|]. left. exact Hf3. }
  unfold move_to_backup in Hmv.
  destruct (files s3 !! f) as [n|] eqn:Hf3; [|discriminate].
  destruct (backup s3) as [|bk|] eqn:Hb3; try discriminate.
  injection Hmv as <-.
  apply bind_Raise_inv in Hrun as [Hmv2 | ([] & s5 & Hmv2 & Hrun)]; [|discriminate].
  unfold move_to_backup in Hmv2. cbn [with_backup with_files files backup] in Hmv2.
  destruct (delete f (files s3) !! (b +:+ ".gt.txt")) as [n_gt|] eqn:Hgt; [discriminate|].
  injection Hmv2 as <- <-. split; [reflexivity|]. exists s3.
  split; [exact Hloop|]. right. exists n, bk.
  split; [exact Hf3|]. split; [exact Hb3|]. split; [reflexivity | exact Hgt].
Qed.

Lemma dotted_not_output b t (lines : list str) k name :
  name = b +:+ String "." t →
  ∀ j, (j < List.length lines)%nat →
    name ≠ png_name b (k + j) ∧ name ≠ gt_name b (k + j).
Proof.
  intros -> j _. split; apply not_eq_sym, new_base_ne_dotted.
Qed.

(** X11. A record that is reported as failed has stopped in one of four
    ways, and each leaves a definite state:
    the file found for it is not an image ([UnidentifiedImageError],
    nothing written or moved); it has no line ([ZeroDivisionError],
    nothing written or moved); a crop or save was refused
    ([ImagingError]: the lines before it are written, image and
    annotation are not moved); or a move failed ([FileNotFoundError]: all
    lines are written, and either [multiline_originals] is not a directory
    and nothing is moved, or the image is moved and [base_name.gt.txt] did
    not exist). *)
Theorem X11_failed_record_states (b : string) (lines : list str)
    (s s' : state) (b' : string) (e : exn) :
  process_record (b, lines) s = Ok tt s' →
  last (console s') = Some (ErrFailed b' e) →
  b' = b ∧
  ∃ f n, find_image (files s) b image_exts = Some f ∧ files s !! f = Some n ∧
    ((e = UnidentifiedImageError ∧ (∀ img, n ≠ ImageFile img) ∧
      files s' = files s ∧ backup s' = backup s ∧
      total_split s' = total_split s) ∨
     ((∃ img, n = ImageFile img) ∧
      ((e = ZeroDivisionError ∧ lines = [] ∧
        files s' = files s ∧ backup s' = backup s) ∨
       (e = ImagingError ∧ backup s' = backup s ∧ files s' !! f = Some n ∧
        ∃ done t rest, lines = done ++ t :: rest ∧ t ≠ [] ∧
          total_split s'
          = (total_split s + List.length (filter (λ l, l ≠ []) done))%nat) ∨
       (e = FileNotFoundError ∧
        total_split s'
        = (total_split s + List.length (filter (λ l, l ≠ []) lines))%nat ∧
        ((¬ is_dir (backup s) ∧ backup s' = backup s ∧ files s' !! f = Some n) ∨
         (files s' !! f = None ∧ in_backup (backup s') f ∧
          files s !! (b +:+ ".gt.txt") = None ∧
          files s' !! (b +:+ ".gt.txt") = None)))))).
Proof.
  intros Hrun Hlast.
  destruct (process_record_cases b lines s)
    as [[_ H] | (f & Hfind & [(s2 & Hb & H) | (e0 & s1 & Hb & H)])];
    rewrite H in Hrun; injection Hrun as <-.
  - cbn in Hlast. rewrite last_snoc in Hlast. discriminate.
  - apply split_body_Ok in Hb as (? & ? & ? & ? & ? & _ & _ & _ & _ & _ & _ & _ & ->).
    cbn in Hlast. rewrite last_snoc in Hlast. discriminate.
  - cbn [said console] in Hlast. rewrite last_snoc in Hlast.
    injection Hlast as <- <-. split; [reflexivity|].
    destruct (find_image_dotted _ _ _ Hfind) as [t Hdot].
    pose proof Hfind as Hex.
    apply find_image_Some in Hex as (pre & ext & post & Hexts & Hfe & [n Hn] & _).
    assert (Hext : ext ∈ image_exts) by (rewrite Hexts; set_solver).
    assert (Hfg : f ≠ b +:+ ".gt.txt").
    { rewrite Hfe. intros Heq. apply String.app_inj in Heq.
      exact (image_ext_not_gt_txt ext Hext Heq). }
    exists f, n. split; [exact Hfind|]. split; [exact Hn|].
    apply split_body_Raise_cases in Hb
      as [(Hnone & _) | [(n' & Hn' & Hni & -> & ->) | (img & Himg & Hcases)]];
      cbn [said files] in *.
    + congruence.
    + left. assert (n' = n) by congruence. subst n'. repeat split; assumption.
    + right. assert (n = ImageFile img) by congruence. subst n.
      split; [eauto|]. cbv zeta in Hcases.
      destruct Hcases as [(-> & -> & ->)
                         | [(-> & done & t0 & rest & s0 & -> & Ht & Hdone & Hfail)
                           | (-> & s3 & Hloop & Hmove)]].
      * left. repeat split.
      * right. left.
        apply split_lines_Ok in Hdone as (Hbk & Htot & _ & Hframe & _).
        cbn [said files backup total_split] in *.
        assert (Hf0 : files s0 !! f = Some (ImageFile img)).
        { rewrite (Hframe f (dotted_not_output b t done 1 f Hdot)). exact Himg. }
        apply split_line_Raise in Hfail as (_ & _ & [[_ ->] | (c & _ & _ & ->)]).
        { split; [reflexivity|]. split; [exact Hbk|]. split; [exact Hf0|].
          exists done, t0, rest. repeat split; assumption. }
        pose proof (truncated_rest (png_name b (1 + List.length done)) s0)
          as (Hb' & Ht' & _).
        split; [reflexivity|]. split; [rewrite Hb'; exact Hbk|]. split.
        { rewrite truncated_lookup, decide_False; [exact Hf0|].
          rewrite Hdot. apply not_eq_sym, new_base_ne_dotted. }
        exists done, t0, rest. rewrite Ht'. repeat split; assumption.
      * right. right.
        apply split_lines_Ok in Hloop as (Hbk & Htot & _ & Hframe & _).
        cbn [said files backup total_split] in *.
        assert (Hf3 : files s3 !! f = Some (ImageFile img)).
        { rewrite (Hframe f (dotted_not_output b t lines 1 f Hdot)). exact Himg. }
        split; [reflexivity|].
        destruct Hmove as [[-> [Hnone | Hnd]] | (n' & bk & Hn' & Hb3 & -> & Hgt)].
        -- congruence.
        -- split; [exact Htot|]. left. rewrite <- Hbk.
           split; [exact Hnd|]. split; [reflexivity | exact Hf3].
        -- unfold with_backup, with_files. cbn [files backup total_split].
           split; [exact Htot|]. right.
           split; [apply lookup_delete_eq|].
           split; [cbn; rewrite lookup_insert_eq; eauto|].
           rewrite lookup_delete_ne in Hgt by exact Hfg.
           split; [|rewrite lookup_delete_ne by exact Hfg; exact Hgt].
           rewrite <- Hgt. symmetry. apply Hframe.
           apply (dotted_not_output b "gt.txt" lines 1). reflexivity.
Qed.

(** X12. When a record goes through, the image found for it and
    [base_name.gt.txt] are gone from the directory and sit in
    [multiline_originals] under the same names with the content they had
    before the record; the other entries of [multiline_originals] are as
    before. *)
Theorem X12_originals_moved_unmodified (b : string) (lines : list str)
    (s s' : state) (n : nat) :
  process_record (b, lines) s = Ok tt s' →
  last (console s') = Some (OkSplitInto n) →
  ∃ f n_img n_gt bk bk',
    find_image (files s) b image_exts = Some f ∧
    files s !! f = Some n_img ∧ files s !! (b +:+ ".gt.txt") = Some n_gt ∧
    backup s = BackupDir bk ∧ backup s' = BackupDir bk' ∧
    files s' !! f = None ∧ files s' !! (b +:+ ".gt.txt") = None ∧
    bk' !! f = Some n_img ∧ bk' !! (b +:+ ".gt.txt") = Some n_gt ∧
    ∀ name, name ≠ f → name ≠ b +:+ ".gt.txt" → bk' !! name = bk !! name.
Proof.
  intros Hrun Hmark.
  destruct (process_record_effect _ _ _ _ _ Hrun Hmark)
    as (f & img & n_gt & bk & Hfind & Himg & Hgt & Hbk & _ & _ & Heff).
  cbv zeta in Heff. destruct Heff as (_ & _ & _ & _ & Hf' & Hg' & Hbk').
  pose proof Hfind as Hex.
  apply find_image_Some in Hex as (pre & ext & post & Hexts & Hfe & _ & _).
  assert (Hfg : f ≠ b +:+ ".gt.txt").
  { rewrite Hfe. intros Heq. apply String.app_inj in Heq.
    apply (image_ext_not_gt_txt ext); [rewrite Hexts; set_solver | exact Heq]. }
  exists f, (ImageFile img), n_gt, bk,
    (<[b +:+ ".gt.txt" := n_gt]> (<[f := ImageFile img]> bk)).
  split; [exact Hfind|]. split; [exact Himg|]. split; [exact Hgt|].
  split; [exact Hbk|]. split; [exact Hbk'|]. split; [exact Hf'|].
  split; [exact Hg'|]. split.
  { rewrite lookup_insert_ne by congruence. apply lookup_insert_eq. }
  split; [apply lookup_insert_eq|].
  intros name Hnf Hng. rewrite !lookup_insert_ne by congruence. reflexivity.
Qed.

End RecordProperties.

(** ** The further properties on concrete inputs *)

Section Instances.
Import Raster Samples Cases.

Lemma X1_crop_box_inside_image_witness :
  let '(x0, y0, x1, y1) := crop_box 300 90 (line_height 90 3) 3 2 in
  (x0 = 0 ∧ x1 = 300 ∧ x0 ≤ x1 ∧ 0 ≤ y0 ∧ y0 ≤ y1 ∧ y1 ≤ 90)%Z.
Proof. apply (X1_crop_box_inside_image 300 90 3 2); lia. Defined.

Lemma X2_last_band_takes_the_remainder_witness :
  box_height (crop_box 300 100 (line_height 100 3) 3 3)
  = (line_height 100 3 + 100 `mod` 3)%Z.
Proof.
  refine (proj1 (X2_last_band_takes_the_remainder 300 100 3 _ _)); lia.
Defined.

Lemma X3_bands_nonempty_iff_enough_rows_witness :
  (∀ i, (1 ≤ i ≤ 3)%nat →
        (1 ≤ box_height (crop_box 300 90 (line_height 90 3) 3 i))%Z)
  ↔ (Z.of_nat 3 ≤ 90)%Z.
Proof. apply (X3_bands_nonempty_iff_enough_rows 300 90 3); lia. Defined.

Lemma X5_unreadable_annotation_stops_the_run_witness :
  exit_status (main (Some (unreadable.1, NoBackup))) = 1%Z ∧
  disk_after (main (Some (unreadable.1, NoBackup))) = Some (unreadable.1, NoBackup) ∧
  went_through_count (printed (main (Some (unreadable.1, NoBackup)))) = 0%nat.
Proof.
  apply (X5_unreadable_annotation_stops_the_run unreadable.1 NoBackup).
  unfold readable.
  assert (Hglob : glob_gt_txt unreadable.1 = [("x.gt.txt", Opaque)])
    by (vm_compute; reflexivity).
  rewrite Hglob. intros Hall. inversion Hall as [|? ? Hx _]. exact Hx.
Defined.

Lemma X6_backup_directory_is_made_witness :
  exit_status (main (Some (orphan.1, NoBackup))) = 0%Z ∧
  ∃ fs' bk', disk_after (main (Some (orphan.1, NoBackup))) = Some (fs', BackupDir bk').
Proof.
  apply (X6_backup_directory_is_made orphan.1 NoBackup).
  - unfold readable.
    assert (Hglob : glob_gt_txt orphan.1 = [("p.gt.txt", TextFile (codes "a
b
"))]) by (vm_compute; reflexivity).
    rewrite Hglob. repeat constructor.
  - vm_compute. discriminate.
  - discriminate.
Defined.

Lemma X8_other_entries_untouched_witness :
  ∃ fs' b', disk_after (main (Some page1_and_other)) = Some (fs', b') ∧
            fs' !! "other.gt.txt" = page1_and_other.1 !! "other.gt.txt".
Proof.
  apply (X8_other_entries_untouched page1_and_other.1 NoBackup "other.gt.txt").
  assert (Hrec : records_of page1_and_other.1 = [("page1", page1_lines)])
    by (vm_compute; reflexivity).
  rewrite Hrec. intros base lines Hin.
  apply list_elem_of_singleton in Hin. injection Hin as -> ->.
  unfold own_name, moved_name.
  intros [[H | (ext & Hext & H)] | (i & [H | H])].
  - rewrite !app_cons_s in H. discriminate.
  - rewrite !app_cons_s in H. discriminate.
  - unfold png_name, new_base in H. rewrite !app_cons_s in H. discriminate.
  - unfold gt_name, new_base in H. rewrite !app_cons_s in H. discriminate.
Defined.

Lemma X11_failed_record_states_witness :
  "ax" = "ax" ∧
  ∃ f n, find_image (files dotted_ready) "ax" image_exts = Some f ∧
         files dotted_ready !! f = Some n.
Proof.
  destruct (X11_failed_record_states "ax" [codes "a"; codes "b"] dotted_ready
              (final (process_record ("ax", [codes "a"; codes "b"]) dotted_ready))
              "ax" FileNotFoundError)
    as (Hb & f & n & Hf & Hn & _).
  - vm_compute. reflexivity.
  - vm_compute. reflexivity.
  - split; [exact Hb|]. exists f, n. split; assumption.
Defined.

Lemma X12_originals_moved_unmodified_witness :
  ∃ f n_img, find_image (files page1_ready) "page1" image_exts = Some f ∧
             files page1_ready !! f = Some n_img.
Proof.
  destruct (X12_originals_moved_unmodified "page1" page1_lines page1_ready
              (final (process_record ("page1", page1_lines) page1_ready)) 3)
    as (f & n_img & _ & _ & _ & Hf & Hn & _).
  - vm_compute. reflexivity.
  - vm_compute. reflexivity.
  - exists f, n_img. split; assumption.
Defined.

Lemma X13_scanner_lines_are_clean_witness :
  codes "World" ≠ [] ∧ (LF ∉ codes "World") ∧ (CR ∉ codes "World") ∧
  (∀ c, head (codes "World") = Some c → isspace c = false) ∧
  (∀ c, last (codes "World") = Some c → isspace c = false) ∧
  strip (codes "World") = codes "World".
Proof.
  apply (X13_scanner_lines_are_clean page1_text).
  change (stripped_lines page1_text) with page1_lines.
  right. left.
Defined.

Lemma X14_written_annotation_is_single_line_witness :
  stripped_lines (codes "World" ++ [LF]) = [codes "World"] ∧
  multiline_record ("page1_line002.gt.txt", TextFile (codes "World" ++ [LF])) = None.
Proof.
  apply (X14_written_annotation_is_single_line page1_text).
  change (stripped_lines page1_text) with page1_lines.
  right. left.
Defined.

End Instances.
